(** * Google Ads report source (ingestr/src/google_ads/__init__.py)

    A shallow embedding of the report catalog, the report-spec parser,
    the source orchestration and the row extraction generator, followed
    by the properties the specification states about them.

    Python [str] values are modelled by [string]; every character is read
    as the code point of the same number (the Latin-1 range of Unicode).
    Exceptions are values of [exception]; a call that may raise returns a
    [result]; a generator is the list of items it yields together with
    the exception that ended it, if any. *)

From Stdlib Require Import Ascii ZArith Lia.
From stdpp Require Import base option list strings gmap fin_maps pretty.

(** ** Exceptions and results *)

Inductive exception : Type :=
| ValueError (msg : string)
| TypeError (msg : string)
| UnboundLocalError (name : string).

Inductive result (A : Type) : Type :=
| Ok (a : A)
| Raise (e : exception).
Arguments Ok {A} a.
Arguments Raise {A} e.

Global Instance result_ret : MRet result := λ A a, Ok a.
Global Instance result_bind : MBind result := λ A B k r,
  match r with
  | Ok a => k a
  | Raise e => Raise e
  end.

(** [[f(x) for x in xs]]: the elements are evaluated left to right and the
    first exception ends the comprehension. *)
Fixpoint map_result {A B : Type} (f : A → result B) (xs : list A) : result (list B) :=
  match xs with
  | [] => Ok []
  | x :: rest =>
      y ← f x ;
      ys ← map_result f rest ;
      Ok (y :: ys)
  end.

(** ** The [str] methods the module calls *)

Module Str.

(** [s.count(c)] for a one-character [c]. *)
Fixpoint count (c : ascii) (s : string) : nat :=
  match s with
  | EmptyString => 0
  | String a rest => (if Ascii.eqb a c then 1 else 0) + count c rest
  end.

(** [s.split(sep)] for a one-character [sep]: one more piece than there
    are separators, empty pieces kept. *)
Fixpoint split (sep : ascii) (s : string) : list string :=
  match s with
  | EmptyString => [EmptyString]
  | String a rest =>
      if Ascii.eqb a sep then EmptyString :: split sep rest
      else match split sep rest with
           | piece :: pieces => String a piece :: pieces
           | [] => [String a EmptyString]
           end
  end.

(** [c.isspace()] on the code points below 256: TAB, LF, VT, FF, CR, the
    separators FS, GS, RS, US, the space, NEL and the no-break space. *)
Definition isspace (c : ascii) : bool :=
  let n := nat_of_ascii c in
  ((9 <=? n) && (n <=? 13)) || ((28 <=? n) && (n <=? 32))
  || (n =? 133) || (n =? 160).

Fixpoint lstrip (s : string) : string :=
  match s with
  | EmptyString => EmptyString
  | String a rest => if isspace a then lstrip rest else s
  end.

Fixpoint rstrip (s : string) : string :=
  match s with
  | EmptyString => EmptyString
  | String a rest =>
      match rstrip rest with
      | EmptyString => if isspace a then EmptyString else String a EmptyString
      | kept => String a kept
      end
  end.

(** [s.strip()] *)
Definition strip (s : string) : string := rstrip (lstrip s).

(** [s.startswith(p)] *)
Fixpoint startswith (s p : string) : bool :=
  match p, s with
  | EmptyString, _ => true
  | String b p', String a s' => Ascii.eqb a b && startswith s' p'
  | String _ _, EmptyString => false
  end.

(** [s.replace(old, new)] for one-character [old] and [new]. *)
Fixpoint replace (old new : ascii) (s : string) : string :=
  match s with
  | EmptyString => EmptyString
  | String a rest =>
      String (if Ascii.eqb a old then new else a) (replace old new rest)
  end.

(** [sep.join(parts)] *)
Fixpoint join (sep : string) (parts : list string) : string :=
  match parts with
  | [] => EmptyString
  | [p] => p
  | p :: rest => p +:+ sep +:+ join sep rest
  end.

(** Notions used to describe [strip]: a text of blanks only, and a text
    that begins or ends with a blank. *)
Definition all_space (s : string) : Prop :=
  ∀ i a, String.get i s = Some a → isspace a = true.

Definition starts_blank (s : string) : bool :=
  match s with
  | String a _ => isspace a
  | EmptyString => false
  end.

Fixpoint ends_blank (s : string) : bool :=
  match s with
  | EmptyString => false
  | String a EmptyString => isspace a
  | String _ rest => ends_blank rest
  end.

End Str.

(** ** Reports *)

Record Report : Type := mkReport {
  resource : string;
  dimensions : list string;
  metrics : list string;
  segments : list string;
}.

(** [Report.__init__] with its defaults. The default lists are shared by
    the reports built without the argument; nothing ever mutates them. *)
Definition Report__init__ : Report :=
  {| resource := ""; dimensions := []; metrics := []; segments := [] |}.

Definition set_resource (v : string) (r : Report) : Report :=
  {| resource := v; dimensions := dimensions r;
     metrics := metrics r; segments := segments r |}.
Definition set_dimensions (v : list string) (r : Report) : Report :=
  {| resource := resource r; dimensions := v;
     metrics := metrics r; segments := segments r |}.
Definition set_metrics (v : list string) (r : Report) : Report :=
  {| resource := resource r; dimensions := dimensions r;
     metrics := v; segments := segments r |}.
Definition set_segments (v : list string) (r : Report) : Report :=
  {| resource := resource r; dimensions := dimensions r;
     metrics := metrics r; segments := v |}.

Definition primary_keys (self : Report) : list string :=
  map (Str.replace "." "_") (dimensions self ++ segments self).

Definition format_error : exception :=
  ValueError "Invalid report specification format. Expected custom:{resource}:{dimensions}:{metrics}".
Definition dimension_dot_error : exception :=
  ValueError "Invalid dimension format. Expected {resource}.{field}".
Definition dimension_segment_error : exception :=
  ValueError "Invalid dimension format. Segments are not allowed in dimensions.".
(** What unpacking [_, resource, dimensions, metrics = ...] raises on a
    list that does not have four elements. *)
Definition unpack_error : exception :=
  ValueError "not enough values to unpack".

Definition _parse_dimension (dim : string) : result string :=
  let dim := Str.strip dim in
  if Str.count "." dim =? 0 then Raise dimension_dot_error
  else if Str.startswith dim "segments." then Raise dimension_segment_error
  else Ok dim.

Definition _parse_metric (metric : string) : string :=
  let metric := Str.strip metric in
  if negb (Str.startswith metric "metrics.")
  then "metrics." +:+ Str.strip metric
  else metric.

Definition from_spec (spec : string) : result Report :=
  if negb (Str.count ":" spec =? 3) then Raise format_error
  else
    match Str.split ":" spec with
    | [_; resource; dimensions; metrics] =>
        let report := Report__init__ in
        let report := set_segments ["segments.date"] report in
        let report := set_resource resource report in
        dims ← map_result _parse_dimension (Str.split "," dimensions) ;
        let report := set_dimensions dims report in
        let report := set_metrics (map _parse_metric (Str.split "," metrics)) report in
        Ok report
    | _ => Raise unpack_error
    end.

(** The rule a dimension entry breaks, in the words of the specification:
    after trimming it has no dot, or it starts with [segments.]. *)
Definition bad_dimension (d : string) : Prop :=
  Str.count "." (Str.strip d) = 0
  ∨ Str.startswith (Str.strip d) "segments." = true.

Definition good_dimension (d : string) : Prop :=
  Str.count "." (Str.strip d) ≠ 0
  ∧ Str.startswith (Str.strip d) "segments." = false.

(** A spec string the parser must refuse. *)
Definition spec_rejected (spec : string) : Prop :=
  Str.count ":" spec ≠ 3
  ∨ ∃ dims d, Str.split ":" spec !! 2 = Some dims
              ∧ d ∈ Str.split "," dims ∧ bad_dimension d.

(** ** The built-in catalog *)

Definition account_report_daily : Report :=
  {|
     resource := "campaign";
     dimensions :=
       ["customer.id"];
     metrics :=
       ["metrics.active_view_impressions";
        "metrics.active_view_measurability";
        "metrics.active_view_measurable_cost_micros";
        "metrics.active_view_measurable_impressions";
        "metrics.active_view_viewability";
        "metrics.clicks";
        "metrics.conversions";
        "metrics.conversions_value";
        "metrics.cost_micros";
        "metrics.impressions";
        "metrics.interactions";
        "metrics.interaction_event_types";
        "metrics.view_through_conversions"];
     segments :=
       ["segments.date";
        "segments.ad_network_type";
        "segments.device"]
  |}.

Definition campaign_report_daily : Report :=
  {|
     resource := "campaign";
     dimensions :=
       ["campaign.id";
        "customer.id"];
     metrics :=
       ["metrics.active_view_impressions";
        "metrics.active_view_measurability";
        "metrics.active_view_measurable_cost_micros";
        "metrics.active_view_measurable_impressions";
        "metrics.active_view_viewability";
        "metrics.clicks";
        "metrics.conversions";
        "metrics.conversions_value";
        "metrics.cost_micros";
        "metrics.impressions";
        "metrics.interactions";
        "metrics.interaction_event_types";
        "metrics.view_through_conversions"];
     segments :=
       ["segments.date";
        "segments.ad_network_type";
        "segments.device"]
  |}.

Definition ad_group_report_daily : Report :=
  {|
     resource := "ad_group";
     dimensions :=
       ["ad_group.id";
        "customer.id";
        "campaign.id"];
     metrics :=
       ["metrics.active_view_impressions";
        "metrics.active_view_measurability";
        "metrics.active_view_measurable_cost_micros";
        "metrics.active_view_measurable_impressions";
        "metrics.active_view_viewability";
        "metrics.clicks";
        "metrics.conversions";
        "metrics.conversions_value";
        "metrics.cost_micros";
        "metrics.impressions";
        "metrics.interactions";
        "metrics.interaction_event_types";
        "metrics.view_through_conversions"];
     segments :=
       ["segments.date";
        "segments.ad_network_type";
        "segments.device"]
  |}.

Definition ad_report_daily : Report :=
  {|
     resource := "ad_group_ad";
     dimensions :=
       ["ad_group.id";
        "ad_group_ad.ad.id";
        "customer.id";
        "campaign.id"];
     metrics :=
       ["metrics.active_view_impressions";
        "metrics.active_view_measurability";
        "metrics.active_view_measurable_cost_micros";
        "metrics.active_view_measurable_impressions";
        "metrics.active_view_viewability";
        "metrics.clicks";
        "metrics.conversions";
        "metrics.conversions_value";
        "metrics.cost_micros";
        "metrics.impressions";
        "metrics.interactions";
        "metrics.interaction_event_types";
        "metrics.view_through_conversions"];
     segments :=
       ["segments.date";
        "segments.ad_network_type";
        "segments.device"]
  |}.

Definition audience_report_daily : Report :=
  {|
     resource := "ad_group_audience_view";
     dimensions :=
       ["ad_group.id";
        "customer.id";
        "campaign.id";
        "ad_group_criterion.criterion_id"];
     metrics :=
       ["metrics.active_view_impressions";
        "metrics.active_view_measurability";
        "metrics.active_view_measurable_cost_micros";
        "metrics.active_view_measurable_impressions";
        "metrics.active_view_viewability";
        "metrics.clicks";
        "metrics.conversions";
        "metrics.conversions_value";
        "metrics.cost_micros";
        "metrics.impressions";
        "metrics.interactions";
        "metrics.interaction_event_types";
        "metrics.view_through_conversions"];
     segments :=
       ["segments.date";
        "segments.ad_network_type";
        "segments.device"]
  |}.

Definition keyword_report_daily : Report :=
  {|
     resource := "ad_group_audience_view";
     dimensions :=
       ["ad_group.id";
        "customer.id";
        "campaign.id";
        "ad_group_criterion.criterion_id"];
     metrics :=
       ["metrics.active_view_impressions";
        "metrics.active_view_measurability";
        "metrics.active_view_measurable_cost_micros";
        "metrics.active_view_measurable_impressions";
        "metrics.active_view_viewability";
        "metrics.clicks";
        "metrics.conversions";
        "metrics.conversions_value";
        "metrics.cost_micros";
        "metrics.impressions";
        "metrics.interactions";
        "metrics.interaction_event_types";
        "metrics.view_through_conversions"];
     segments :=
       ["segments.date";
        "segments.ad_network_type";
        "segments.device"]
  |}.

Definition click_report_daily : Report :=
  {|
     resource := "click_view";
     dimensions :=
       ["click_view.gclid";
        "customer.id";
        "ad_group.id";
        "campaign.id"];
     metrics :=
       ["metrics.clicks"];
     segments :=
       segments Report__init__
  |}.

Definition landing_page_report_daily : Report :=
  {|
     resource := "landing_page_view";
     dimensions :=
       ["landing_page_view.expanded_final_url";
        "landing_page_view.resource_name";
        "customer.id";
        "ad_group.id";
        "campaign.id"];
     metrics :=
       ["metrics.average_cpc";
        "metrics.clicks";
        "metrics.cost_micros";
        "metrics.ctr";
        "metrics.impressions";
        "metrics.mobile_friendly_clicks_percentage";
        "metrics.speed_score";
        "metrics.valid_accelerated_mobile_pages_clicks_percentage"];
     segments :=
       segments Report__init__
  |}.

Definition search_keyword_report_daily : Report :=
  {|
     resource := "keyword_view";
     dimensions :=
       ["customer.id";
        "ad_group.id";
        "campaign.id";
        "keyword_view.resource_name";
        "ad_group_criterion.criterion_id"];
     metrics :=
       ["metrics.absolute_top_impression_percentage";
        "metrics.average_cpc";
        "metrics.average_cpm";
        "metrics.clicks";
        "metrics.conversions_from_interactions_rate";
        "metrics.conversions_value";
        "metrics.cost_micros";
        "metrics.ctr";
        "metrics.impressions";
        "metrics.top_impression_percentage";
        "metrics.view_through_conversions"];
     segments :=
       segments Report__init__
  |}.

Definition search_term_report_daily : Report :=
  {|
     resource := "search_term_view";
     dimensions :=
       ["customer.id";
        "ad_group.id";
        "campaign.id";
        "search_term_view.resource_name";
        "search_term_view.search_term";
        "search_term_view.status"];
     metrics :=
       ["metrics.absolute_top_impression_percentage";
        "metrics.average_cpc";
        "metrics.clicks";
        "metrics.conversions";
        "metrics.conversions_from_interactions_rate";
        "metrics.conversions_from_interactions_value_per_interaction";
        "metrics.cost_micros";
        "metrics.ctr";
        "metrics.impressions";
        "metrics.top_impression_percentage";
        "metrics.view_through_conversions"];
     segments :=
       ["segments.search_term_match_type"]
  |}.

Definition lead_form_submission_data_report_daily : Report :=
  {|
     resource := "lead_form_submission_data";
     dimensions :=
       ["lead_form_submission_data.gclid";
        "lead_form_submission_data.submission_date_time";
        "lead_form_submission_data.lead_form_submission_fields";
        "lead_form_submission_data.custom_lead_form_submission_fields";
        "lead_form_submission_data.resource_name";
        "customer.id";
        "ad_group_ad.ad.id";
        "ad_group.id";
        "campaign.id"];
     metrics :=
       metrics Report__init__;
     segments :=
       segments Report__init__
  |}.

Definition local_services_lead_report_daily : Report :=
  {|
     resource := "local_services_lead";
     dimensions :=
       ["customer.id";
        "local_services_lead.creation_date_time";
        "local_services_lead.contact_details";
        "local_services_lead.credit_details.credit_state";
        "local_services_lead.credit_details.credit_state_last_update_date_time";
        "local_services_lead.lead_charged";
        "local_services_lead.lead_status";
        "local_services_lead.lead_type";
        "local_services_lead.locale";
        "local_services_lead.note.description";
        "local_services_lead.note.edit_date_time";
        "local_services_lead.service_id"];
     metrics :=
       metrics Report__init__;
     segments :=
       segments Report__init__
  |}.

Definition local_services_lead_conversations_report_daily : Report :=
  {|
     resource := "local_services_lead_conversation";
     dimensions :=
       ["customer.id";
        "local_services_lead_conversation.event_date_time";
        "local_services_lead_conversation.conversation_channel";
        "local_services_lead_conversation.local_services_lead_id";
        "local_services_lead_conversation.message_details_attachment_urls";
        "local_services_lead_conversation.message_details_text";
        "local_services_lead_conversation.participant_type";
        "local_services_lead_conversation.phone_call_details_call_duration_millis";
        "local_services_lead_conversation.phone_call_details_call_recording_url"];
     metrics :=
       metrics Report__init__;
     segments :=
       segments Report__init__
  |}.

(** The catalog, in the order of the dict literal (the order [items()]
    iterates in). *)
Definition BUILTIN_REPORTS : list (string * Report) :=
  [("account_report_daily", account_report_daily);
   ("campaign_report_daily", campaign_report_daily);
   ("ad_group_report_daily", ad_group_report_daily);
   ("ad_report_daily", ad_report_daily);
   ("audience_report_daily", audience_report_daily);
   ("keyword_report_daily", keyword_report_daily);
   ("click_report_daily", click_report_daily);
   ("landing_page_report_daily", landing_page_report_daily);
   ("search_keyword_report_daily", search_keyword_report_daily);
   ("search_term_report_daily", search_term_report_daily);
   ("lead_form_submission_data_report_daily", lead_form_submission_data_report_daily);
   ("local_services_lead_report_daily", local_services_lead_report_daily);
   ("local_services_lead_conversations_report_daily", local_services_lead_conversations_report_daily)].

(** ** Values of rows and records *)

Record datetime : Type := mkDatetime {
  year : Z; month : Z; day : Z;
  hour : Z; minute : Z; second : Z;
}.

(** What [to_dict] can return (parsed JSON) and what a record can hold.
    A dict is the list of its items in insertion order; a float is kept
    as mantissa and binary exponent. *)
#[warnings="-register-all"]
Inductive value : Type :=
| VNone
| VBool (b : bool)
| VInt (n : Z)
| VFloat (m e : Z)
| VStr (s : string)
| VDatetime (dt : datetime)
| VList (xs : list value)
| VDict (items : list (string * value)).

Abbreviation pydict := (list (string * value)).

(** Keys of a flattened dict: [flatten] starts from the key [None], joins
    keys into strings and can leave a bare list index. *)
Inductive pykey : Type :=
| KNone
| KStr (s : string)
| KInt (n : nat).

Global Instance pykey_eq_dec : EqDecision pykey.
Proof. solve_decision. Defined.

Global Instance pykey_countable : Countable pykey.
Proof.
  refine (inj_countable'
    (λ k, match k with
          | KNone => inl ()
          | KStr s => inr (inl s)
          | KInt n => inr (inr n)
          end)
    (λ x, match x with
          | inl _ => KNone
          | inr (inl s) => KStr s
          | inr (inr n) => KInt n
          end) _).
  by intros [].
Defined.

(** ** [datetime.strptime(_, "%Y-%m-%d")] *)

Module Strptime.

(** A regular expression as the list of its matches at the start of the
    text, in the order backtracking tries them: (matched, rest). *)
Definition regex : Type := string → list (string * string).

Definition between (lo hi : nat) (c : ascii) : bool :=
  (lo <=? nat_of_ascii c) && (nat_of_ascii c <=? hi).
(** [\d] *)
Definition isdigit : ascii → bool := between 48 57.

Definition one (p : ascii → bool) : regex := λ s,
  match s with
  | String a rest => if p a then [(String a "", rest)] else []
  | EmptyString => []
  end.

Definition seq (r1 r2 : regex) : regex := λ s,
  '(m1, rest1) ← r1 s;
  '(m2, rest2) ← r2 rest1;
  [(m1 +:+ m2, rest2)].

Definition alt (rs : list regex) : regex := λ s, r ← rs; r s.

(** [(?P<Y>\d\d\d\d)] *)
Definition group_Y : regex :=
  seq (one isdigit) (seq (one isdigit) (seq (one isdigit) (one isdigit))).
(** [(?P<m>1[0-2]|0[1-9]|[1-9])] *)
Definition group_m : regex :=
  alt [seq (one (between 49 49)) (one (between 48 50));
       seq (one (between 48 48)) (one (between 49 57));
       one (between 49 57)].
(** [(?P<d>3[0-1]|[1-2]\d|0[1-9]|[1-9]| [1-9])] *)
Definition group_d : regex :=
  alt [seq (one (between 51 51)) (one (between 48 49));
       seq (one (between 49 50)) (one isdigit);
       seq (one (between 48 48)) (one (between 49 57));
       one (between 49 57);
       seq (one (between 32 32)) (one (between 49 57))].
Definition dash : regex := one (between 45 45).

(** [int(text)] on what the groups can match: decimal digits after
    optional blanks. *)
Fixpoint int_go (acc : Z) (s : string) : Z :=
  match s with
  | EmptyString => acc
  | String a rest =>
      if isdigit a then int_go (10 * acc + (Z.of_nat (nat_of_ascii a) - 48)) rest
      else int_go acc rest
  end.
Definition int (s : string) : Z := int_go 0 s.

(** [format_regex.match(data_string)]: the first match, as the three
    groups and the unconverted rest. *)
Definition format_regex_match (data_string : string)
  : option (string * string * string * string) :=
  head ('(Y, r1) ← group_Y data_string;
        '(_, r2) ← dash r1;
        '(m, r3) ← group_m r2;
        '(_, r4) ← dash r3;
        '(d, r5) ← group_d r4;
        [(Y, m, d, r5)]).

Definition is_leap (y : Z) : bool :=
  ((y mod 4 =? 0) && negb (y mod 100 =? 0) || (y mod 400 =? 0))%Z.

Definition days_in_month (y m : Z) : Z :=
  if (m =? 2)%Z then (if is_leap y then 29 else 28)
  else if ((m =? 4) || (m =? 6) || (m =? 9) || (m =? 11))%Z then 30
  else 31.

(** The checks of [_strptime]: the argument is a [str], the regex of the
    format matches, nothing is left unconverted, and the fields make a
    date. The messages are shortened: the real ones quote the text. *)
Definition strptime (v : value) : result datetime :=
  match v with
  | VStr data_string =>
      match format_regex_match data_string with
      | None => Raise (ValueError "time data does not match format '%Y-%m-%d'")
      | Some (Y, m, d, rest) =>
          if negb (String.eqb rest "") then
            Raise (ValueError "unconverted data remains")
          else
            let year := int Y in
            let month := int m in
            let day := int d in
            if (year <? 1)%Z then Raise (ValueError "year is out of range")
            else if (days_in_month year month <? day)%Z then
              Raise (ValueError "day is out of range for month")
            else Ok (mkDatetime year month day 0 0 0)
      end
  | _ => Raise (TypeError "strptime() argument 1 must be str")
  end.

(** [date(y, m, d).isoformat()]: zero-padded [YYYY-MM-DD]. *)
Definition digit_char (n : Z) : ascii := ascii_of_nat (48 + Z.to_nat n).
Definition pad2 (n : Z) : string :=
  String (digit_char (n / 10)) (String (digit_char (n mod 10)) "").
Definition pad4 (n : Z) : string :=
  String (digit_char (n / 1000))
    (String (digit_char (n / 100 mod 10)) (pad2 (n mod 100))).
Definition isoformat (y m d : Z) : string :=
  pad4 y +:+ "-" +:+ pad2 m +:+ "-" +:+ pad2 d.

End Strptime.

(** ** [flatten_json.flatten] with its default separator *)

Module Flatten.

(** [bool(key)] *)
Definition truthy (key : pykey) : bool :=
  match key with
  | KNone => false
  | KStr s => negb (String.eqb s "")
  | KInt n => negb (n =? 0)
  end.

(** [str(key)], as ["{}".format(key)] writes it. *)
Definition str (key : pykey) : string :=
  match key with
  | KNone => "None"
  | KStr s => s
  | KInt n => pretty n
  end.

Definition _construct_key (previous_key : pykey) (separator : string)
    (new_key : pykey) : pykey :=
  if truthy previous_key
  then KStr (str previous_key +:+ separator +:+ str new_key)
  else new_key.

(** [not object_]: the empty and zero values. *)
Definition falsy (object_ : value) : bool :=
  match object_ with
  | VNone | VBool false | VInt 0 | VFloat 0 _ | VStr "" | VList [] | VDict [] => true
  | _ => false
  end.

(** The inner [_flatten(object_, key)], threading [flattened_dict]. *)
Fixpoint _flatten (separator : string) (object_ : value) (key : pykey)
    (flattened_dict : gmap pykey value) {struct object_} : gmap pykey value :=
  if falsy object_ then <[key := object_]> flattened_dict
  else
    match object_ with
    | VDict items =>
        (fix each (items : list (string * value)) (acc : gmap pykey value) :=
           match items with
           | [] => acc
           | (object_key, item) :: rest =>
               each rest
                 (_flatten separator item
                    (_construct_key key separator (KStr object_key)) acc)
           end) items flattened_dict
    | VList xs =>
        (fix each (index : nat) (xs : list value) (acc : gmap pykey value) :=
           match xs with
           | [] => acc
           | item :: rest =>
               each (S index) rest
                 (_flatten separator item
                    (_construct_key key separator (KInt index)) acc)
           end) 0 xs flattened_dict
    | _ => <[key := object_]> flattened_dict
    end.

Definition flatten (nested_dict : pydict) : gmap pykey value :=
  if length nested_dict =? 0 then ∅
  else _flatten "_" (VDict nested_dict) KNone ∅.

(** The leaves of a nested value in the order [_flatten] visits them,
    each with the keys and list indices that lead to it. *)
Fixpoint leaf_paths (object_ : value) : list (list pykey * value) :=
  if falsy object_ then [([], object_)]
  else
    match object_ with
    | VDict items =>
        (fix each (items : list (string * value)) :=
           match items with
           | [] => []
           | (object_key, item) :: rest =>
               map (λ pv, (KStr object_key :: pv.1, pv.2)) (leaf_paths item)
               ++ each rest
           end) items
    | VList xs =>
        (fix each (index : nat) (xs : list value) :=
           match xs with
           | [] => []
           | item :: rest =>
               map (λ pv, (KInt index :: pv.1, pv.2)) (leaf_paths item)
               ++ each (S index) rest
           end) 0 xs
    | _ => [([], object_)]
    end.

(** The key built along a path, starting from [key]. *)
Definition path_key (separator : string) (key : pykey) (path : list pykey) : pykey :=
  fold_left (λ previous_key new_key, _construct_key previous_key separator new_key)
    path key.

(** Storing leaves one after the other, a later leaf replacing an earlier
    one under the same key. *)
Definition store (separator : string) (key : pykey) (acc : gmap pykey value)
    (leaves : list (list pykey * value)) : gmap pykey value :=
  fold_left (λ acc pv, <[path_key separator key pv.1 := pv.2]> acc) leaves acc.

End Flatten.

(** ** Generators *)

Record generator (A : Type) : Type := mkGenerator {
  yielded : list A;
  raised : option exception;
}.
Arguments mkGenerator {A} yielded raised.
Arguments yielded {A} g.
Arguments raised {A} g.

Module Gen.

Definition done {A : Type} : generator A := mkGenerator [] None.
Definition yield {A : Type} (a : A) : generator A := mkGenerator [a] None.
Definition raise {A : Type} (e : exception) : generator A :=
  mkGenerator [] (Some e).

(** Run [g], then [k] unless [g] raised. *)
Definition seq {A : Type} (g k : generator A) : generator A :=
  match raised g with
  | Some _ => g
  | None => mkGenerator (yielded g ++ yielded k) (raised k)
  end.

(** Evaluate an expression inside the generator body. *)
Definition eval {A B : Type} (r : result B) (k : B → generator A) : generator A :=
  match r with
  | Ok b => k b
  | Raise e => raise e
  end.

(** [for x in xs: body] *)
Fixpoint for_each {A B : Type} (xs : list B) (body : B → generator A) : generator A :=
  match xs with
  | [] => done
  | x :: rest => seq (body x) (for_each rest body)
  end.

End Gen.

(** ** The source and its resources *)

(** The cursor of the host framework. *)
Record incremental : Type := mkIncremental {
  last_value : option datetime;
  end_value : option datetime;
}.

Definition newline : string := String (ascii_of_nat 10) "".

Section Source.

(** The row objects of the Google Ads API and the repository's
    [helpers.data_processing.to_dict] and [predicates.date_predicate],
    which the module imports. *)
Context {Row : Type}.
Variable to_dict : Row → pydict.
Variable date_predicate : string → option datetime → option datetime → string.

Record Batch : Type := mkBatch { results : list Row }.

(** [client.get_service("GoogleAdsService")] as its [search_stream]. *)
Record GoogleAdsClient : Type := mkClient {
  search_stream : string → string → list Batch;
}.

Definition fields_of (report : Report) : list string :=
  dimensions report ++ metrics report ++ segments report.

Definition query_of (report : Report) (date : incremental) : string :=
  newline +:+
  "        SELECT" +:+ newline +:+
  "            " +:+ Str.join ", " (fields_of report) +:+ newline +:+
  "        FROM" +:+ newline +:+
  "            " +:+ resource report +:+ newline +:+
  "        WHERE" +:+ newline +:+
  "            " +:+ date_predicate "segments.date" (last_value date) (end_value date)
    +:+ newline +:+
  "    ".

Definition allowed_keys_of (report : Report) : gset pykey :=
  list_to_set (map (λ k, KStr (Str.replace "." "_" k)) (fields_of report)).

(** Lines 431 to 433: the flattened row with its date parsed. *)
Definition row_data (row : Row) : result (gmap pykey value) :=
  let data := Flatten.flatten (to_dict row) in
  match data !! KStr "segments_date" with
  | Some v =>
      parsed ← Strptime.strptime v;
      Ok (<[KStr "segments_date" := VDatetime parsed]> data)
  | None => Ok data
  end.

Definition daily_report (client : GoogleAdsClient) (customer_id : string)
    (report : Report) (date : incremental) : generator (gmap pykey value) :=
  let fields := fields_of report in
  let query := query_of report date in
  let allowed_keys := allowed_keys_of report in
  let stream := search_stream client customer_id query in
  Gen.for_each stream (λ batch,
    Gen.for_each (results batch) (λ row,
      Gen.eval (row_data row) (λ data,
        Gen.yield (filter (λ kv, kv.1 ∈ allowed_keys) data)))).

(** What [dlt.resource(daily_report, name=..., write_disposition=...,
    primary_key=...)(client, customer_id, report, date)] builds: the
    registration and the generator bound to its arguments. *)
Record DltResource : Type := mkResource {
  name : string;
  write_disposition : string;
  primary_key : list string;
  items : generator (gmap pykey value);
}.

Definition dlt_resource (name write_disposition : string) (primary_key : list string)
    (client : GoogleAdsClient) (customer_id : string) (report : Report)
    (date : incremental) : DltResource :=
  mkResource name write_disposition primary_key
    (daily_report client customer_id report date).

(** Reading a local name of a function body: unbound until assigned. *)
Definition load_local {A : Type} (name : string) (slot : option A) : result A :=
  match slot with
  | Some a => Ok a
  | None => Raise (UnboundLocalError name)
  end.

Definition google_ads (client : GoogleAdsClient) (customer_id : string)
    (date : incremental) (report_spec : option string) : generator DltResource :=
  (* [report] is a local of the function: only the [for] statement
     assigns it. *)
  let report : option Report := None in
  Gen.seq
    match report_spec with
    | Some spec =>
        Gen.eval (from_spec spec) (λ custom_report,
          let bind_args :=
            dlt_resource "daily_report" "merge" (primary_keys custom_report) in
          Gen.eval (load_local "report" report) (λ report,
            Gen.yield (bind_args client customer_id report date)))
    | None => Gen.done
    end
    (Gen.for_each BUILTIN_REPORTS (λ '(report_name, report),
       Gen.yield
         (dlt_resource report_name "merge" (primary_keys report)
            client customer_id report date))).

(** The rows [daily_report] consumes, batch after batch. *)
Definition streamed_rows (client : GoogleAdsClient) (customer_id : string)
    (report : Report) (date : incremental) : list Row :=
  concat (map results (search_stream client customer_id (query_of report date))).

(** A row that matches the click report: its flattened mapping has the
    five selected fields and no date segment, which that report does not
    select. *)
Definition click_row_matches (row : Row) : Prop :=
  let flat := Flatten.flatten (to_dict row) in
  Forall (λ k, is_Some (flat !! KStr k))
    ["click_view_gclid"; "customer_id"; "ad_group_id"; "campaign_id"; "metrics_clicks"]
  ∧ flat !! KStr "segments_date" = None.

End Source.

(** ** Notions used by the further properties *)

(** The spec string of a report, in the format the docstring of
    [from_spec] gives: [custom:{resource}:{dimensions}:{metrics}] with the
    lists joined by commas. *)
Definition spec_of_report (report : Report) : string :=
  "custom:" +:+ resource report +:+ ":" +:+ Str.join "," (dimensions report)
  +:+ ":" +:+ Str.join "," (metrics report).

(** A dimension as [from_spec] leaves it: no blank at either end, a dot,
    not under [segments.], and free of the two separators. *)
Definition canonical_dimension (d : string) : Prop :=
  Str.starts_blank d = false ∧ Str.ends_blank d = false
  ∧ Str.count "." d ≠ 0 ∧ Str.startswith d "segments." = false
  ∧ Str.count "," d = 0 ∧ Str.count ":" d = 0.

(** A metric as [from_spec] leaves it. *)
Definition canonical_metric (m : string) : Prop :=
  Str.startswith m "metrics." = true
  ∧ Str.starts_blank m = false ∧ Str.ends_blank m = false
  ∧ Str.count "," m = 0 ∧ Str.count ":" m = 0.

(** A calendar date at midnight. *)
Definition valid_date (dt : datetime) : Prop :=
  (1 ≤ year dt ≤ 9999)%Z ∧ (1 ≤ month dt ≤ 12)%Z
  ∧ (1 ≤ day dt ≤ Strptime.days_in_month (year dt) (month dt))%Z
  ∧ hour dt = 0%Z ∧ minute dt = 0%Z ∧ second dt = 0%Z.

(** A value [_flatten] stores as it is: not a non-empty list or dict. *)
Definition is_leaf (v : value) : bool :=
  match v with
  | VList (_ :: _) | VDict (_ :: _) => false
  | _ => true
  end.

(** The keys [flatten] builds for the leaves of a nested dict, one per
    leaf, in the order of the visit. *)
Definition flat_keys (nested_dict : pydict) : list pykey :=
  map (λ pv, Flatten.path_key "_" KNone pv.1)
    (Flatten.leaf_paths (VDict nested_dict)).

(** ** Sample inputs *)

(** Rows given as the dict [to_dict] makes of them, a client that streams
    one batch whatever the query, and a stand-in for the clause of
    [date_predicate]; the sample runs do not depend on its text. *)
Definition sample_predicate (field : string) (last_value end_value : option datetime)
    : string :=
  field.

Definition one_batch_client (rows : list pydict) : @GoogleAdsClient pydict :=
  mkClient (λ customer_id query, [mkBatch rows]).

Definition no_cursor : incremental := mkIncremental None None.

Definition click_row : pydict :=
  [("click_view", VDict [("gclid", VStr "Cj0KCQ"); ("resource_name", VStr "customers/1/clickViews/x")]);
   ("customer", VDict [("id", VStr "1"); ("resource_name", VStr "customers/1")]);
   ("ad_group", VDict [("id", VStr "22")]);
   ("campaign", VDict [("id", VStr "333")]);
   ("metrics", VDict [("clicks", VStr "1")])].

Definition slash_date_row : pydict :=
  [("customer", VDict [("id", VStr "1")]);
   ("segments", VDict [("date", VStr "03/01/2024")])].

(** A client that streams the given batches whatever the query, and a
    row with a date. *)
Definition batches_client (batches : list (list pydict)) : @GoogleAdsClient pydict :=
  mkClient (λ customer_id query, map mkBatch batches).

Definition dated_row : pydict :=
  [("campaign", VDict [("id", VStr "333")]);
   ("customer", VDict [("id", VStr "1")]);
   ("segments", VDict [("date", VStr "2024-03-01")])].

(** * Properties *)

(** ** Sample evaluations *)

Example from_spec_docstring :
  from_spec "custom:ad_group_ad_asset_view:ad_group.id,campaign.id:clicks,conversions"
  = Ok {| resource := "ad_group_ad_asset_view";
          dimensions := ["ad_group.id"; "campaign.id"];
          metrics := ["metrics.clicks"; "metrics.conversions"];
          segments := ["segments.date"] |}.
Proof. reflexivity. Qed.

Example strptime_iso :
  Strptime.strptime (VStr "2024-03-01") = Ok (mkDatetime 2024 3 1 0 0 0).
Proof. reflexivity. Qed.

Example strptime_slashes :
  Strptime.strptime (VStr "03/01/2024")
  = Raise (ValueError "time data does not match format '%Y-%m-%d'").
Proof. reflexivity. Qed.

Example strptime_unpadded :
  Strptime.strptime (VStr "2024-3-1") = Ok (mkDatetime 2024 3 1 0 0 0).
Proof. reflexivity. Qed.

Example strptime_feb_30 :
  Strptime.strptime (VStr "2023-02-29")
  = Raise (ValueError "day is out of range for month").
Proof. reflexivity. Qed.

Example flatten_ad_group :
  Flatten.flatten [("ad_group", VDict [("id", VInt 5)])]
  = {[ KStr "ad_group_id" := VInt 5 ]}.
Proof. reflexivity. Qed.

(** ** Strings *)

Module StrFacts.

Import Str.

Lemma app_cons a s t : String a s +:+ t = String a (s +:+ t).
Proof. reflexivity. Qed.

Lemma app_empty_l t : "" +:+ t = t.
Proof. reflexivity. Qed.

Lemma app_assoc (s t u : string) : (s +:+ t) +:+ u = s +:+ t +:+ u.
Proof.
  induction s as [|a s IH]; [done|]. rewrite !app_cons. by rewrite IH.
Qed.

Lemma count_app c s t : count c (s +:+ t) = count c s + count c t.
Proof.
  induction s as [|a s IH]; [done|].
  rewrite app_cons. simpl. rewrite IH. lia.
Qed.

Lemma count_cons_same c s : count c (String c s) = S (count c s).
Proof. simpl. by rewrite Ascii.eqb_refl. Qed.

Lemma split_length sep s : length (split sep s) = S (count sep s).
Proof.
  induction s as [|a s IH]; [done|]. simpl.
  destruct (Ascii.eqb a sep); simpl; [by rewrite IH|].
  destruct (split sep s); simpl in *; lia.
Qed.

Lemma split_whole sep s : count sep s = 0 → split sep s = [s].
Proof.
  induction s as [|a s IH]; [done|]. simpl.
  destruct (Ascii.eqb a sep); [done|]. simpl. intros H.
  by rewrite IH.
Qed.

Lemma split_app sep p rest :
  count sep p = 0 → split sep (p +:+ String sep rest) = p :: split sep rest.
Proof.
  induction p as [|a p IH]; intros H.
  - rewrite app_empty_l. simpl. by rewrite Ascii.eqb_refl.
  - rewrite app_cons. simpl in *.
    destruct (Ascii.eqb a sep); [done|]. by rewrite IH.
Qed.

(** No piece of a split contains the separator. *)
Lemma split_pieces sep s : Forall (λ piece, count sep piece = 0) (split sep s).
Proof.
  induction s as [|a s IH]; simpl.
  - by constructor.
  - destruct (Ascii.eqb a sep) eqn:E; [by constructor|].
    destruct (split sep s) as [|piece pieces].
    + constructor; [|done]. simpl. by rewrite E.
    + inversion IH; subst. constructor; [|done]. simpl. by rewrite E.
Qed.

(** Joining the pieces with the separator gives the text back. *)
Lemma join_split sep s : join (String sep "") (split sep s) = s.
Proof.
  induction s as [|a s IH]; [done|]. simpl.
  destruct (Ascii.eqb a sep) eqn:E.
  - apply Ascii.eqb_eq in E as ->.
    pose proof (split_length sep s) as L.
    destruct (split sep s) as [|piece pieces]; [done|].
    change (join (String sep "") ("" :: piece :: pieces))
      with ("" +:+ String sep "" +:+ join (String sep "") (piece :: pieces)).
    by rewrite IH.
  - pose proof (split_length sep s) as L.
    destruct (split sep s) as [|piece pieces]; [done|].
    destruct pieces as [|piece' pieces].
    + simpl in *. by subst.
    + change (join (String sep "") (String a piece :: piece' :: pieces))
        with (String a piece +:+ String sep "" +:+ join (String sep "") (piece' :: pieces)).
      rewrite app_cons. f_equal. exact IH.
Qed.

(** *** strip *)

Lemma lstrip_starts s : starts_blank (lstrip s) = false.
Proof.
  induction s as [|a s IH]; [done|]. simpl.
  destruct (isspace a) eqn:E; [done|]. simpl. by rewrite E.
Qed.

Lemma lstrip_fixed s : starts_blank s = false → lstrip s = s.
Proof. destruct s as [|a s]; [done|]. simpl. by intros ->. Qed.

Lemma rstrip_ends s : ends_blank (rstrip s) = false.
Proof.
  induction s as [|a s IH]; [done|]. simpl.
  destruct (rstrip s) as [|b kept] eqn:R.
  - destruct (isspace a) eqn:E; [done|]. simpl. by rewrite E.
  - exact IH.
Qed.

Lemma rstrip_fixed s : ends_blank s = false → rstrip s = s.
Proof.
  induction s as [|a s IH]; [done|]. simpl.
  destruct s as [|b s].
  - simpl. by intros ->.
  - intros H. rewrite (IH H). done.
Qed.

Lemma rstrip_starts s : starts_blank s = false → starts_blank (rstrip s) = false.
Proof.
  destruct s as [|a s]; [done|]. simpl. intros E.
  destruct (rstrip s); [by rewrite E|]. done.
Qed.

Lemma strip_starts s : starts_blank (strip s) = false.
Proof. apply rstrip_starts, lstrip_starts. Qed.

Lemma strip_ends s : ends_blank (strip s) = false.
Proof. apply rstrip_ends. Qed.

Lemma strip_fixed s :
  starts_blank s = false → ends_blank s = false → strip s = s.
Proof. intros H1 H2. unfold strip. by rewrite lstrip_fixed, rstrip_fixed. Qed.

Lemma strip_idemp s : strip (strip s) = strip s.
Proof. apply strip_fixed; [apply strip_starts | apply strip_ends]. Qed.

Lemma all_space_empty : all_space "".
Proof. intros i a. by destruct i. Qed.

Lemma all_space_cons a s : isspace a = true → all_space s → all_space (String a s).
Proof. intros Ha Hs [|i] b; simpl; [naive_solver | apply Hs]. Qed.

Lemma lstrip_split s : ∃ l, s = l +:+ lstrip s ∧ all_space l.
Proof.
  induction s as [|a s [l [E L]]].
  - exists "". split; [done | apply all_space_empty].
  - simpl. destruct (isspace a) eqn:Ha.
    + exists (String a l). rewrite app_cons, <- E.
      split; [done | by apply all_space_cons].
    + exists "". split; [done | apply all_space_empty].
Qed.

Lemma rstrip_split s : ∃ r, s = rstrip s +:+ r ∧ all_space r.
Proof.
  induction s as [|a s [r [E R]]].
  - exists "". split; [done | apply all_space_empty].
  - simpl. destruct (rstrip s) as [|b kept] eqn:K.
    + rewrite app_empty_l in E. subst r.
      destruct (isspace a) eqn:Ha.
      * exists (String a s). split; [done | by apply all_space_cons].
      * exists s. by split.
    + exists r. rewrite !app_cons. rewrite app_cons in E. by rewrite <- E.
Qed.

(** [strip] removes a run of blanks at each end and nothing else. *)
Lemma strip_split s :
  ∃ l r, s = l +:+ strip s +:+ r ∧ all_space l ∧ all_space r
         ∧ starts_blank (strip s) = false ∧ ends_blank (strip s) = false.
Proof.
  destruct (lstrip_split s) as [l [El L]].
  destruct (rstrip_split (lstrip s)) as [r [Er R]].
  exists l, r. unfold strip at 1. rewrite <- Er, <- El.
  eauto using strip_starts, strip_ends.
Qed.

Lemma startswith_app p s : startswith (p +:+ s) p = true.
Proof.
  induction p as [|a p IH]; [by destruct s|].
  rewrite app_cons. simpl. by rewrite Ascii.eqb_refl, IH.
Qed.

Lemma get_replace old new s i :
  String.get i (replace old new s)
  = (λ a, if Ascii.eqb a old then new else a) <$> String.get i s.
Proof.
  revert i. induction s as [|a s IH]; intros [|i]; simpl; auto.
Qed.

Lemma length_replace old new s :
  String.length (replace old new s) = String.length s.
Proof. induction s; simpl; auto. Qed.

Lemma count_replace old new s :
  old ≠ new → count old (replace old new s) = 0.
Proof.
  intros Hne. induction s as [|a s IH]; [done|]. simpl. rewrite IH.
  destruct (Ascii.eqb a old) eqn:E.
  - destruct (Ascii.eqb new old) eqn:E'; [|done].
    apply Ascii.eqb_eq in E'. congruence.
  - by rewrite E.
Qed.

End StrFacts.

(** ** The spec parser *)

Section ParserFacts.

Lemma good_or_bad d : {good_dimension d} + {bad_dimension d}.
Proof.
  unfold good_dimension, bad_dimension.
  destruct (decide (Str.count "." (Str.strip d) = 0)); [right; by left|].
  destruct (Str.startswith (Str.strip d) "segments."); [right; by right|].
  by left.
Qed.

Lemma good_not_bad d : good_dimension d → ¬ bad_dimension d.
Proof. intros [H1 H2] [H|H]; congruence. Qed.

Lemma parse_dimension_good d : good_dimension d → _parse_dimension d = Ok (Str.strip d).
Proof.
  intros [H1 H2]. unfold _parse_dimension.
  destruct (Nat.eqb_spec (Str.count "." (Str.strip d)) 0); [done|].
  by rewrite H2.
Qed.

Lemma parse_dimension_bad d :
  bad_dimension d →
  _parse_dimension d = Raise dimension_dot_error
  ∨ _parse_dimension d = Raise dimension_segment_error.
Proof.
  intros H. unfold _parse_dimension.
  destruct (Nat.eqb_spec (Str.count "." (Str.strip d)) 0); [by left|].
  destruct H as [H|H]; [done|]. rewrite H. by right.
Qed.

Lemma map_result_all {A B : Type} (f : A → result B) (g : A → B) xs :
  Forall (λ x, f x = Ok (g x)) xs → map_result f xs = Ok (map g xs).
Proof.
  induction 1 as [|x xs Hx _ IH]; [done|].
  simpl. rewrite Hx. simpl. rewrite IH. done.
Qed.

Lemma map_result_raise {A B : Type} (f : A → result B) xs e :
  map_result f xs = Raise e → ∃ x, x ∈ xs ∧ f x = Raise e.
Proof.
  induction xs as [|x xs IH]; [done|]. simpl.
  destruct (f x) as [y|e'] eqn:Hx; simpl.
  - destruct (map_result f xs) as [ys|e'']; simpl; [done|].
    intros [= ->]. destruct IH as [x' [? ?]]; [done|].
    exists x'. split; [by right | done].
  - intros [= ->]. exists x. split; [by left | done].
Qed.

Lemma map_result_some_raise {A B : Type} (f : A → result B) xs x e :
  x ∈ xs → f x = Raise e → ∃ e', map_result f xs = Raise e'.
Proof.
  induction 1 as [x xs|x x' xs _ IH]; intros Hx; simpl.
  - rewrite Hx. by eexists.
  - destruct (f x'); simpl; [|by eexists].
    destruct (IH Hx) as [e' ->]. by eexists.
Qed.

(** The four fields of a spec string with three colons. *)
Lemma split_three spec :
  Str.count ":" spec = 3 →
  ∃ p res dims mets, Str.split ":" spec = [p; res; dims; mets].
Proof.
  intros H. pose proof (StrFacts.split_length ":" spec) as L. rewrite H in L.
  destruct (Str.split ":" spec) as [|p [|res [|dims [|mets [|]]]]];
    simpl in L; try lia. by repeat eexists.
Qed.

Lemma from_spec_fields spec p res dims mets :
  Str.count ":" spec = 3 →
  Str.split ":" spec = [p; res; dims; mets] →
  from_spec spec =
    ds ← map_result _parse_dimension (Str.split "," dims);
    Ok {| resource := res; dimensions := ds;
          metrics := map _parse_metric (Str.split "," mets);
          segments := ["segments.date"] |}.
Proof. intros H S. unfold from_spec. rewrite H, S. reflexivity. Qed.

Lemma from_spec_format spec : Str.count ":" spec ≠ 3 → from_spec spec = Raise format_error.
Proof.
  intros H. unfold from_spec.
  destruct (Nat.eqb_spec (Str.count ":" spec) 3); done.
Qed.

(** A string assembled from four colon-free fields splits into them. *)
Lemma split_assembled p res dims mets :
  Str.count ":" p = 0 → Str.count ":" res = 0 →
  Str.count ":" dims = 0 → Str.count ":" mets = 0 →
  let spec := p +:+ ":" +:+ res +:+ ":" +:+ dims +:+ ":" +:+ mets in
  Str.count ":" spec = 3 ∧ Str.split ":" spec = [p; res; dims; mets].
Proof.
  intros Hp Hr Hd Hm spec. subst spec. split.
  - rewrite !StrFacts.count_app, Hp, Hr, Hd, Hm. reflexivity.
  - change (Str.split ":"
              (p +:+ String ":" (res +:+ String ":" (dims +:+ String ":" mets)))
            = [p; res; dims; mets]).
    rewrite !StrFacts.split_app by done. by rewrite StrFacts.split_whole.
Qed.

Lemma parse_metric_prefixed m : Str.startswith (_parse_metric m) "metrics." = true.
Proof.
  unfold _parse_metric.
  destruct (Str.startswith (Str.strip m) "metrics.") eqn:E; simpl; [done|].
  apply StrFacts.startswith_app.
Qed.

Lemma parse_metric_cases m :
  let t := Str.strip m in
  (Str.startswith t "metrics." = true ∧ _parse_metric m = t)
  ∨ (Str.startswith t "metrics." = false ∧ _parse_metric m = "metrics." +:+ t).
Proof.
  unfold _parse_metric.
  destruct (Str.startswith (Str.strip m) "metrics.") eqn:E; simpl; [by left|].
  right. by rewrite StrFacts.strip_idemp.
Qed.

End ParserFacts.

(** ** What [from_spec] returns *)

(** C2. For a spec string [custom:{resource}:{dims}:{metrics}] with exactly
    three colons in which every dimension entry, once trimmed, has a dot
    and does not start with [segments.], [from_spec] returns a report whose
    resource is the second field, whose dimensions are the entries of the
    comma-split third field in order, each without the blanks at its two
    ends, whose metrics are the trimmed
    entries of the comma-split fourth field, each with [metrics.] put in
    front only when it was not there already, and whose segments are
    exactly [segments.date]. *)
Theorem from_spec_valid (res dims mets : string) :
  Str.count ":" res = 0 → Str.count ":" dims = 0 → Str.count ":" mets = 0 →
  Forall good_dimension (Str.split "," dims) →
  ∃ report,
    from_spec ("custom:" +:+ res +:+ ":" +:+ dims +:+ ":" +:+ mets) = Ok report
    ∧ resource report = res
    ∧ dimensions report = map Str.strip (Str.split "," dims)
    ∧ Forall2 (λ entry dim,
         ∃ l r, entry = l +:+ dim +:+ r ∧ Str.all_space l ∧ Str.all_space r
                ∧ Str.starts_blank dim = false ∧ Str.ends_blank dim = false)
        (Str.split "," dims) (dimensions report)
    ∧ Str.join "," (Str.split "," dims) = dims
    ∧ Str.join "," (Str.split "," mets) = mets
    ∧ Forall2 (λ entry metric,
         let trimmed := Str.strip entry in
         (Str.startswith trimmed "metrics." = true ∧ metric = trimmed)
         ∨ (Str.startswith trimmed "metrics." = false
            ∧ metric = "metrics." +:+ trimmed))
        (Str.split "," mets) (metrics report)
    ∧ Forall (λ metric, Str.startswith metric "metrics." = true) (metrics report)
    ∧ segments report = ["segments.date"].
Proof.
  intros Hr Hd Hm Hgood.
  destruct (split_assembled "custom" res dims mets) as [H3 Hsplit]; try done.
  change ("custom" +:+ ":" +:+ ?x) with ("custom:" +:+ x) in H3, Hsplit.
  eexists. split.
  { rewrite (from_spec_fields _ _ _ _ _ H3 Hsplit).
    rewrite (map_result_all _ Str.strip).
    - reflexivity.
    - eapply Forall_impl; [exact Hgood|]. apply parse_dimension_good. }
  cbn [resource dimensions metrics segments].
  split; [done|]. split; [done|]. split.
  { clear. induction (Str.split "," dims) as [|d ds IH]; constructor; [|done].
    apply StrFacts.strip_split. }
  split; [apply (StrFacts.join_split ",")|].
  split; [apply (StrFacts.join_split ",")|]. split; [|split; [|done]].
  - induction (Str.split "," mets) as [|m ms IH]; constructor; [|done].
    apply parse_metric_cases.
  - induction (Str.split "," mets) as [|m ms IH]; constructor; [|done].
    apply parse_metric_prefixed.
Qed.

Lemma from_spec_valid_witness :
  ∃ report,
    from_spec ("custom:" +:+ "campaign" +:+ ":" +:+ " campaign.id ,customer.id"
               +:+ ":" +:+ "clicks, metrics.cost_micros") = Ok report
    ∧ resource report = "campaign"
    ∧ dimensions report = ["campaign.id"; "customer.id"]
    ∧ metrics report = ["metrics.clicks"; "metrics.cost_micros"]
    ∧ segments report = ["segments.date"].
Proof.
  destruct (from_spec_valid "campaign" " campaign.id ,customer.id"
              "clicks, metrics.cost_micros")
    as (report & E & Hres & Hdims & _ & _ & _ & _ & _ & Hseg).
  - reflexivity.
  - reflexivity.
  - reflexivity.
  - repeat constructor; vm_compute; congruence.
  - exists report. repeat split; try assumption.
    vm_compute in E. injection E as <-. reflexivity.
Defined.

(** C3. [from_spec] raises exactly when the colon count is not three or
    some entry of the comma-split dimension field, once trimmed, has no
    dot or starts with [segments.]; what it raises is then a [ValueError]
    carrying the format message or one of the two dimension messages; on
    every other input it returns a report. *)
Theorem from_spec_raises_iff (spec : string) :
  ((∃ e, from_spec spec = Raise e) ↔ spec_rejected spec)
  ∧ (∀ e, from_spec spec = Raise e →
       e = ValueError "Invalid report specification format. Expected custom:{resource}:{dimensions}:{metrics}"
       ∨ e = ValueError "Invalid dimension format. Expected {resource}.{field}"
       ∨ e = ValueError "Invalid dimension format. Segments are not allowed in dimensions.")
  ∧ ((∃ report, from_spec spec = Ok report) ↔ ¬ spec_rejected spec).
Proof.
  destruct (decide (Str.count ":" spec = 3)) as [H3|H3].
  2:{ rewrite (from_spec_format _ H3). unfold spec_rejected.
      split; [|split].
      - split; [by left | by eexists].
      - intros e [= <-]. by left.
      - split; [by intros [? ?] | intros []; by left]. }
  destruct (split_three _ H3) as (p & res & dims & mets & Hsplit).
  rewrite (from_spec_fields _ _ _ _ _ H3 Hsplit).
  assert (Hrej : spec_rejected spec ↔ ∃ d, d ∈ Str.split "," dims ∧ bad_dimension d).
  { unfold spec_rejected. rewrite Hsplit. split.
    - intros [?|(dims' & d & [= <-] & ? & ?)]; [done | eauto].
    - intros (d & ? & ?). right. exists dims, d. eauto. }
  destruct (map_result _parse_dimension (Str.split "," dims)) as [ds|e] eqn:Hmap; simpl.
  - assert (Hnone : ¬ spec_rejected spec).
    { rewrite Hrej. intros (d & Hin & Hbad).
      destruct (parse_dimension_bad _ Hbad) as [E|E];
        destruct (map_result_some_raise _ _ _ _ Hin E) as [e' He']; congruence. }
    split; [|split].
    + split; [by intros [? ?] | done].
    + done.
    + split; [done | by eexists].
  - destruct (map_result_raise _ _ _ Hmap) as (d & Hin & Hd).
    assert (Hbad : bad_dimension d).
    { destruct (good_or_bad d) as [G|B]; [|done].
      rewrite (parse_dimension_good _ G) in Hd. done. }
    split; [|split].
    + split; [intros _; apply Hrej; eauto | by eexists].
    + intros e' [= <-].
      destruct (parse_dimension_bad _ Hbad) as [E|E]; rewrite E in Hd;
        injection Hd as <-; auto.
    + split; [by intros [? ?] | intros Hn; destruct Hn; apply Hrej; eauto].
Qed.

(** C9. The first colon-delimited token is never looked at: with any
    colon-free token in front, the rest of the spec string parses to the
    same result as with [custom] in front. *)
Theorem from_spec_ignores_prefix (p rest : string) :
  Str.count ":" p = 0 →
  from_spec (p +:+ ":" +:+ rest) = from_spec ("custom:" +:+ rest).
Proof.
  intros Hp.
  change ("custom:" +:+ rest) with ("custom" +:+ String ":" rest).
  change (p +:+ ":" +:+ rest) with (p +:+ String ":" rest).
  unfold from_spec.
  rewrite !StrFacts.count_app, !StrFacts.split_app, Hp by done.
  reflexivity.
Qed.

Lemma from_spec_ignores_prefix_witness :
  from_spec ("builtin" +:+ ":" +:+ "campaign:campaign.id:clicks")
  = from_spec ("custom:" +:+ "campaign:campaign.id:clicks")
  ∧ from_spec "builtin:campaign:campaign.id:clicks"
    = Ok {| resource := "campaign"; dimensions := ["campaign.id"];
            metrics := ["metrics.clicks"]; segments := ["segments.date"] |}.
Proof.
  split.
  - apply (from_spec_ignores_prefix "builtin" "campaign:campaign.id:clicks").
    reflexivity.
  - reflexivity.
Defined.

(** C10. An empty metrics field is not refused: [custom:r:a.b:] parses to
    a report whose metrics are exactly [metrics.]; so does every spec
    string with good dimensions and an empty fourth field; and no parsed
    report has an empty metrics list. *)
Theorem from_spec_empty_metrics :
  from_spec "custom:r:a.b:"
  = Ok {| resource := "r"; dimensions := ["a.b"];
          metrics := ["metrics."]; segments := ["segments.date"] |}
  ∧ (∀ p res dims,
       Str.count ":" p = 0 → Str.count ":" res = 0 → Str.count ":" dims = 0 →
       Forall good_dimension (Str.split "," dims) →
       ∃ report, from_spec (p +:+ ":" +:+ res +:+ ":" +:+ dims +:+ ":" +:+ "") = Ok report
                 ∧ metrics report = ["metrics."])
  ∧ (∀ spec report, from_spec spec = Ok report → metrics report ≠ []).
Proof.
  split; [reflexivity|]. split.
  - intros p res dims Hp Hr Hd Hgood.
    destruct (split_assembled p res dims "") as [H3 Hsplit]; try done.
    rewrite (from_spec_fields _ _ _ _ _ H3 Hsplit).
    rewrite (map_result_all _ Str.strip).
    + eexists. split; reflexivity.
    + eapply Forall_impl; [exact Hgood|]. apply parse_dimension_good.
  - intros spec report.
    destruct (decide (Str.count ":" spec = 3)) as [H3|H3].
    2:{ by rewrite (from_spec_format _ H3). }
    destruct (split_three _ H3) as (p & res & dims & mets & Hsplit).
    rewrite (from_spec_fields _ _ _ _ _ H3 Hsplit).
    destruct (map_result _parse_dimension (Str.split "," dims)); simpl; [|done].
    intros [= <-]. simpl.
    pose proof (StrFacts.split_length "," mets) as L.
    destruct (Str.split "," mets); simpl in *; [lia | done].
Qed.

Lemma from_spec_empty_metrics_witness :
  ∃ report, from_spec ("x" +:+ ":" +:+ "campaign" +:+ ":" +:+ "campaign.id" +:+ ":" +:+ "")
            = Ok report
            ∧ metrics report = ["metrics."].
Proof.
  destruct from_spec_empty_metrics as (_ & H & _).
  apply (H "x" "campaign" "campaign.id"); try reflexivity.
  repeat constructor; vm_compute; congruence.
Defined.

(** ** Primary keys *)

(** C6. [primary_keys()] is the dimensions followed by the segments, in
    their order, each path with every dot replaced by an underscore and
    nothing else changed. *)
Theorem primary_keys_spec (report : Report) :
  primary_keys report
  = map (Str.replace "." "_") (dimensions report)
    ++ map (Str.replace "." "_") (segments report)
  ∧ length (primary_keys report)
    = length (dimensions report) + length (segments report)
  ∧ ∀ i path, (dimensions report ++ segments report) !! i = Some path →
      ∃ key, primary_keys report !! i = Some key
        ∧ String.length key = String.length path
        ∧ Str.count "." key = 0
        ∧ ∀ j, String.get j key
               = (λ a, if Ascii.eqb a "." then "_"%char else a) <$> String.get j path.
Proof.
  unfold primary_keys. split; [apply map_app|]. split.
  - by rewrite length_map, length_app.
  - intros i path Hi. exists (Str.replace "." "_" path). split; [|split; [|split]].
    + change (map ?f ?l) with (f <$> l). by rewrite list_lookup_fmap, Hi.
    + apply StrFacts.length_replace.
    + by apply StrFacts.count_replace.
    + intros j. apply StrFacts.get_replace.
Qed.

(** ** Generators *)

Module GenFacts.

Import Gen.

Lemma seq_done_l {A} (g : generator A) : seq done g = g.
Proof. by destruct g. Qed.

Lemma seq_assoc {A} (g1 g2 g3 : generator A) :
  seq (seq g1 g2) g3 = seq g1 (seq g2 g3).
Proof.
  destruct g1 as [y1 [e1|]], g2 as [y2 [e2|]], g3 as [y3 r3];
    unfold seq; simpl; try done.
  by rewrite app_assoc.
Qed.

Lemma for_each_app {A B} (xs ys : list B) (body : B → generator A) :
  for_each (xs ++ ys) body = seq (for_each xs body) (for_each ys body).
Proof.
  induction xs as [|x xs IH]; simpl.
  - by rewrite seq_done_l.
  - by rewrite IH, seq_assoc.
Qed.

(** A loop over batches with a loop over the rows of each is a loop over
    all the rows in stream order. *)
Lemma for_each_nested {A B C} (inner : C → list B) (xss : list C)
    (body : B → generator A) :
  for_each xss (λ xs, for_each (inner xs) body)
  = for_each (concat (map inner xss)) body.
Proof.
  induction xss as [|xs xss IH]; simpl; [done|].
  by rewrite for_each_app, IH.
Qed.

(** A loop whose body evaluates [f] and yields [g] of the value: the
    records are those of the rows before the first one on which [f]
    raises. *)
Lemma for_each_eval_yield {A B D} (f : B → result D) (g : D → A) (rows : list B) :
  let out := for_each rows (λ row, eval (f row) (λ d, yield (g d))) in
  ∃ ds, map_result f (take (length (yielded out)) rows) = Ok ds
        ∧ yielded out = map g ds
        ∧ match raised out with
          | None => length (yielded out) = length rows
          | Some e => ∃ row, rows !! length (yielded out) = Some row ∧ f row = Raise e
          end.
Proof.
  induction rows as [|row rows IH]; simpl.
  - by exists [].
  - destruct IH as (ds & Hds & Hy & Hr).
    destruct (f row) as [d|e] eqn:Hf; simpl.
    + unfold seq. simpl. exists (d :: ds).
      destruct (raised (for_each rows _)) eqn:E; simpl;
        rewrite Hf; simpl; rewrite Hds; simpl;
        (split; [done | split; [by rewrite Hy | auto]]).
    + exists []. simpl. eauto.
Qed.

Lemma map_result_lookup {A B} (f : A → result B) xs ys i y :
  map_result f xs = Ok ys → ys !! i = Some y →
  ∃ x, xs !! i = Some x ∧ f x = Ok y.
Proof.
  revert ys i. induction xs as [|x xs IH]; intros ys i; simpl.
  - intros [= <-]. done.
  - destruct (f x) as [y'|] eqn:Hx; simpl; [|done].
    destruct (map_result f xs) as [ys'|] eqn:Hxs; simpl; [|done].
    intros [= <-]. destruct i as [|i]; simpl.
    + intros [= <-]. eauto.
    + intros Hi. by apply (IH ys').
Qed.

End GenFacts.

(** ** Flattening *)

Module FlattenFacts.
Import Flatten.

(** Induction on nested values. *)
Lemma value_nested_ind (P : value → Prop) :
  P VNone → (∀ b, P (VBool b)) → (∀ n, P (VInt n)) → (∀ m e, P (VFloat m e)) →
  (∀ s, P (VStr s)) → (∀ dt, P (VDatetime dt)) →
  (∀ xs, Forall P xs → P (VList xs)) →
  (∀ items, Forall (λ kv, P kv.2) items → P (VDict items)) →
  ∀ v, P v.
Proof.
  intros HNone HBool HInt HFloat HStr HDt HList HDict.
  fix IH 1. intros [|b|n|m e|s|dt|xs|items].
  - exact HNone.
  - exact (HBool b).
  - exact (HInt n).
  - exact (HFloat m e).
  - exact (HStr s).
  - exact (HDt dt).
  - apply HList. induction xs as [|x xs IHxs]; constructor; [apply IH | exact IHxs].
  - apply HDict. induction items as [|[k x] items IHitems]; constructor;
      [apply IH | exact IHitems].
Qed.

Lemma path_key_cons separator key k path :
  path_key separator key (k :: path)
  = path_key separator (_construct_key key separator k) path.
Proof. reflexivity. Qed.

Lemma store_app separator key acc l1 l2 :
  store separator key acc (l1 ++ l2)
  = store separator key (store separator key acc l1) l2.
Proof. apply fold_left_app. Qed.

Lemma store_prefixed separator key k acc leaves :
  store separator key acc (map (λ pv, (k :: pv.1, pv.2)) leaves)
  = store separator (_construct_key key separator k) acc leaves.
Proof.
  revert acc. induction leaves as [|pv leaves IH]; intros acc; [done|].
  exact (IH (<[path_key separator key (k :: pv.1) := pv.2]> acc)).
Qed.

(** [_flatten] stores the leaves of the value, in order, each under the
    key built along its path. *)
Lemma _flatten_leaves separator object_ :
  ∀ key acc,
    _flatten separator object_ key acc
    = store separator key acc (leaf_paths object_).
Proof.
  induction object_ as [| | | | | |xs IH|items IH] using value_nested_ind;
    intros key acc;
    try (simpl; match goal with
                | |- context [if ?b then _ else _] => by destruct b
                | _ => reflexivity
                end).
  - (* a list *)
    assert (Hloop : ∀ acc index,
      (fix each (index : nat) (xs : list value) (acc : gmap pykey value) :=
         match xs with
         | [] => acc
         | item :: rest =>
             each (S index) rest
               (_flatten separator item
                  (_construct_key key separator (KInt index)) acc)
         end) index xs acc
      = store separator key acc
          ((fix each (index : nat) (xs : list value) :=
              match xs with
              | [] => []
              | item :: rest =>
                  map (λ pv, (KInt index :: pv.1, pv.2)) (leaf_paths item)
                  ++ each (S index) rest
              end) index xs)).
    { clear acc. induction IH as [|y ys Hy _ IHys]; intros acc index; [reflexivity|].
      rewrite store_app, store_prefixed, <- Hy. apply IHys. }
    destruct xs as [|x xs]; [reflexivity|]. exact (Hloop acc 0).
  - (* a dict *)
    assert (Hloop : ∀ acc,
      (fix each (items : list (string * value)) (acc : gmap pykey value) :=
         match items with
         | [] => acc
         | (object_key, item) :: rest =>
             each rest
               (_flatten separator item
                  (_construct_key key separator (KStr object_key)) acc)
         end) items acc
      = store separator key acc
          ((fix each (items : list (string * value)) :=
              match items with
              | [] => []
              | (object_key, item) :: rest =>
                  map (λ pv, (KStr object_key :: pv.1, pv.2)) (leaf_paths item)
                  ++ each rest
              end) items)).
    { clear acc. induction IH as [|[k y] ys Hy _ IHys]; intros acc; [reflexivity|].
      rewrite store_app, store_prefixed. simpl in Hy. rewrite <- Hy. apply IHys. }
    destruct items as [|kv items]; [reflexivity|]. exact (Hloop acc).
Qed.

Lemma store_lookup separator key leaves :
  ∀ acc k v,
    store separator key acc leaves !! k = Some v →
    acc !! k = Some v
    ∨ ∃ path, (path, v) ∈ leaves ∧ k = path_key separator key path.
Proof.
  induction leaves as [|[p x] leaves IH]; intros acc k v H; [by left|].
  apply IH in H as [H|(path & Hin & ->)].
  - apply lookup_insert_Some in H as [[<- <-]|[_ H]]; [|by left].
    right. exists p. split; [by left | done].
  - right. exists path. split; [by right | done].
Qed.

Lemma store_covers separator key leaves :
  ∀ acc path v,
    (path, v) ∈ leaves →
    is_Some (store separator key acc leaves !! path_key separator key path).
Proof.
  assert (Hkeep : ∀ l acc k, is_Some (acc !! k) →
                    is_Some (store separator key acc l !! k)).
  { induction l as [|[p x] l IH]; intros acc k H; [done|].
    apply IH. change (is_Some (<[path_key separator key p := x]> acc !! k)).
    apply lookup_insert_is_Some'. by right. }
  induction leaves as [|[p x] leaves IH]; intros acc path v Hin.
  - by apply elem_of_nil in Hin.
  - apply elem_of_cons in Hin as [[= -> ->]|Hin]; [|by eapply IH].
    change (store separator key acc ((p, x) :: leaves))
      with (store separator key (<[path_key separator key p := x]> acc) leaves).
    apply Hkeep, lookup_insert_is_Some'. by left.
Qed.

(** Every key of a flattened dict is built along the path to a leaf of
    the nested dict and holds that leaf. *)
Lemma flatten_keys nested_dict k v :
  flatten nested_dict !! k = Some v →
  ∃ path, (path, v) ∈ leaf_paths (VDict nested_dict)
          ∧ k = path_key "_" KNone path.
Proof.
  unfold flatten. destruct nested_dict as [|kv rest]; [done|].
  simpl length. cbn [Nat.eqb]. rewrite _flatten_leaves.
  intros [H|H]%store_lookup; [done | exact H].
Qed.

(** Every leaf of a non-empty nested dict has its key in the flattened
    dict. *)
Lemma flatten_covers nested_dict path v :
  nested_dict ≠ [] →
  (path, v) ∈ leaf_paths (VDict nested_dict) →
  is_Some (flatten nested_dict !! path_key "_" KNone path).
Proof.
  unfold flatten. destruct nested_dict as [|kv rest]; [done|]. intros _.
  simpl length. cbn [Nat.eqb]. rewrite _flatten_leaves.
  apply store_covers.
Qed.

Lemma join_merge separator s k ks :
  Str.join separator ((s +:+ separator +:+ k) :: ks)
  = Str.join separator (s :: k :: ks).
Proof.
  destruct ks as [|k' ks]; [reflexivity|].
  change (Str.join separator ((s +:+ separator +:+ k) :: k' :: ks))
    with ((s +:+ separator +:+ k) +:+ separator +:+ Str.join separator (k' :: ks)).
  change (Str.join separator (s :: k :: k' :: ks))
    with (s +:+ separator +:+ k +:+ separator +:+ Str.join separator (k' :: ks)).
  by rewrite !StrFacts.app_assoc.
Qed.

(** Along a path of dict keys that starts with a non-empty key, the key
    built is the keys joined by the separator. *)
Lemma path_key_join separator s ks :
  s ≠ "" →
  path_key separator KNone (KStr <$> s :: ks)
  = KStr (Str.join separator (s :: ks)).
Proof.
  intros Hs. rewrite fmap_cons, path_key_cons.
  change (_construct_key KNone separator (KStr s)) with (KStr s).
  revert s Hs. induction ks as [|k ks IH]; intros s Hs; [reflexivity|].
  rewrite fmap_cons, path_key_cons.
  assert (E : _construct_key (KStr s) separator (KStr k)
              = KStr (s +:+ separator +:+ k)).
  { unfold _construct_key. simpl. by destruct s. }
  rewrite E, IH; [by rewrite join_merge|]. by destruct s.
Qed.

End FlattenFacts.

(** ** Parsing dates *)

Module StrptimeFacts.
Import Strptime.

Lemma range_cases (lo : Z) (len : nat) (n : Z) :
  (lo ≤ n < lo + Z.of_nat len)%Z →
  n ∈ (λ i, (lo + Z.of_nat i)%Z) <$> List.seq 0 len.
Proof.
  intros H. apply list_elem_of_fmap. exists (Z.to_nat (n - lo)). split; [lia|].
  apply elem_of_seq. lia.
Qed.

Ltac enumerate H :=
  apply range_cases in H; cbv in H;
  repeat (apply elem_of_cons in H as [->|H]); [..|by apply elem_of_nil in H].

Lemma digit_char_spec n :
  (0 ≤ n ≤ 9)%Z →
  isdigit (digit_char n) = true
  ∧ (Z.of_nat (nat_of_ascii (digit_char n)) - 48)%Z = n.
Proof.
  intros H. assert (H' : (0 ≤ n < 0 + Z.of_nat 10)%Z) by lia.
  enumerate H'; by split.
Qed.

Lemma one_ok (p : ascii → bool) c rest :
  p c = true → one p (String c rest) = [(String c "", rest)].
Proof. intros H. unfold one. by rewrite H. Qed.

Lemma seq_ok (r1 r2 : regex) s m1 s1 m2 s2 :
  r1 s = [(m1, s1)] → r2 s1 = [(m2, s2)] → seq r1 r2 s = [(m1 +:+ m2, s2)].
Proof. intros H1 H2. unfold seq. rewrite H1. cbn. rewrite H2. reflexivity. Qed.

Lemma group_Y_digits a b c d rest :
  isdigit a = true → isdigit b = true → isdigit c = true → isdigit d = true →
  group_Y (String a (String b (String c (String d rest))))
  = [(String a (String b (String c (String d ""))), rest)].
Proof.
  intros Ha Hb Hc Hd. unfold group_Y.
  assert (H3 : seq (one isdigit) (one isdigit) (String c (String d rest))
               = [(String c "" +:+ String d "", rest)])
    by (eapply seq_ok; by apply one_ok).
  assert (H2 : seq (one isdigit) (seq (one isdigit) (one isdigit))
                 (String b (String c (String d rest)))
               = [(String b "" +:+ String c "" +:+ String d "", rest)])
    by (eapply seq_ok; [by apply one_ok | exact H3]).
  exact (seq_ok _ _ _ _ _ _ _ (one_ok _ _ _ Ha) H2).
Qed.

Lemma group_Y_pad4 y rest :
  (0 ≤ y ≤ 9999)%Z → group_Y (pad4 y +:+ rest) = [(pad4 y, rest)].
Proof.
  intros H. unfold pad4, pad2.
  apply group_Y_digits; apply digit_char_spec;
    Z.to_euclidean_division_equations; lia.
Qed.

Lemma int_pad4 y : (0 ≤ y ≤ 9999)%Z → int (pad4 y) = y.
Proof.
  intros H. unfold int, pad4, pad2, int_go.
  destruct (digit_char_spec (y / 1000)) as [-> ->];
    [Z.to_euclidean_division_equations; lia|].
  destruct (digit_char_spec (y / 100 mod 10)) as [-> ->];
    [Z.to_euclidean_division_equations; lia|].
  destruct (digit_char_spec (y mod 100 / 10)) as [-> ->];
    [Z.to_euclidean_division_equations; lia|].
  destruct (digit_char_spec (y mod 100 mod 10)) as [-> ->];
    [Z.to_euclidean_division_equations; lia|].
  Z.to_euclidean_division_equations; lia.
Qed.

Lemma int_pad2 n : (0 ≤ n ≤ 99)%Z → int (pad2 n) = n.
Proof.
  intros H. unfold int, pad2, int_go.
  destruct (digit_char_spec (n / 10)) as [-> ->];
    [Z.to_euclidean_division_equations; lia|].
  destruct (digit_char_spec (n mod 10)) as [-> ->];
    [Z.to_euclidean_division_equations; lia|].
  Z.to_euclidean_division_equations; lia.
Qed.

(** After the year: the month and the day of a padded date are matched
    whole and nothing is left over. *)
Lemma month_day_match (Y : string) m d :
  (1 ≤ m ≤ 12)%Z → (1 ≤ d ≤ 31)%Z →
  head ('(_, r2) ← dash ("-" +:+ pad2 m +:+ "-" +:+ pad2 d);
        '(mm, r3) ← group_m r2;
        '(_, r4) ← dash r3;
        '(dd, r5) ← group_d r4;
        [(Y, mm, dd, r5)])
  = Some (Y, pad2 m, pad2 d, "").
Proof.
  intros Hm Hd.
  assert (Hm' : (1 ≤ m < 1 + Z.of_nat 12)%Z) by lia.
  assert (Hd' : (1 ≤ d < 1 + Z.of_nat 31)%Z) by lia.
  clear Hm Hd. enumerate Hm'; enumerate Hd'; vm_compute; reflexivity.
Qed.

Lemma days_in_month_le y m : (days_in_month y m ≤ 31)%Z.
Proof.
  unfold days_in_month.
  repeat match goal with |- context [if ?b then _ else _] => destruct b end; lia.
Qed.

(** Parsing the ISO text of a valid date gives that date at midnight. *)
Lemma strptime_isoformat y m d :
  (1 ≤ y ≤ 9999)%Z → (1 ≤ m ≤ 12)%Z → (1 ≤ d ≤ days_in_month y m)%Z →
  strptime (VStr (isoformat y m d)) = Ok (mkDatetime y m d 0 0 0).
Proof.
  intros Hy Hm Hd. pose proof (days_in_month_le y m) as Hle.
  unfold strptime, format_regex_match, isoformat.
  rewrite group_Y_pad4 by lia.
  cbn [mbind list_bind]. rewrite app_nil_r.
  rewrite month_day_match by lia. cbn [negb String.eqb].
  rewrite int_pad4, !int_pad2 by lia.
  destruct (Z.ltb_spec y 1); [lia|].
  destruct (Z.ltb_spec (days_in_month y m) d); [lia|]. reflexivity.
Qed.

End StrptimeFacts.

(** ** The row extraction generator *)

Section SourceFacts.

Context {Row : Type}.
Variable to_dict : Row → pydict.
Variable date_predicate : string → option datetime → option datetime → string.

Local Abbreviation GoogleAdsClient := (@GoogleAdsClient Row).

Lemma daily_report_rows (client : GoogleAdsClient) customer_id report date :
  daily_report to_dict date_predicate client customer_id report date
  = Gen.for_each (streamed_rows date_predicate client customer_id report date)
      (λ row, Gen.eval (row_data to_dict row) (λ data,
         Gen.yield (filter (λ kv, kv.1 ∈ allowed_keys_of report) data))).
Proof. unfold daily_report, streamed_rows. apply GenFacts.for_each_nested. Qed.

Lemma allowed_keys_spec report k :
  k ∈ allowed_keys_of report
  ↔ ∃ path, path ∈ dimensions report ++ metrics report ++ segments report
            ∧ k = KStr (Str.replace "." "_" path).
Proof.
  unfold allowed_keys_of, fields_of.
  rewrite elem_of_list_to_set.
  change (map ?f ?l) with (f <$> l). rewrite list_elem_of_fmap.
  split; intros (path & H1 & H2); eauto.
Qed.

Lemma row_data_other_keys row data k :
  row_data to_dict row = Ok data → k ≠ KStr "segments_date" →
  data !! k = Flatten.flatten (to_dict row) !! k.
Proof.
  unfold row_data. intros H Hk.
  destruct (Flatten.flatten (to_dict row) !! KStr "segments_date") as [v|]; [|by injection H as <-].
  destruct (Strptime.strptime v); simpl in H; [|done].
  injection H as <-. by rewrite lookup_insert_ne.
Qed.

Lemma row_data_cases row :
  match Flatten.flatten (to_dict row) !! KStr "segments_date" with
  | Some v =>
      match Strptime.strptime v with
      | Ok parsed =>
          row_data to_dict row
          = Ok (<[KStr "segments_date" := VDatetime parsed]> (Flatten.flatten (to_dict row)))
      | Raise e => row_data to_dict row = Raise e
      end
  | None => row_data to_dict row = Ok (Flatten.flatten (to_dict row))
  end.
Proof.
  unfold row_data.
  destruct (Flatten.flatten (to_dict row) !! KStr "segments_date") as [v|]; [|done].
  by destruct (Strptime.strptime v).
Qed.

(** The shape of every run: the records are the filtered data of the
    rows before the first one whose date fails to parse. *)
Lemma daily_report_trace (client : GoogleAdsClient) customer_id report date :
  let rows := streamed_rows date_predicate client customer_id report date in
  let out := daily_report to_dict date_predicate client customer_id report date in
  ∃ ds, map_result (row_data to_dict) (take (length (yielded out)) rows) = Ok ds
        ∧ yielded out = map (filter (λ kv, kv.1 ∈ allowed_keys_of report)) ds
        ∧ match raised out with
          | None => length (yielded out) = length rows
          | Some e => ∃ row, rows !! length (yielded out) = Some row
                             ∧ row_data to_dict row = Raise e
          end.
Proof.
  intros rows out. subst out. rewrite daily_report_rows. fold rows.
  apply (GenFacts.for_each_eval_yield (row_data to_dict)
           (filter (λ kv : pykey * value, kv.1 ∈ allowed_keys_of report)) rows).
Qed.

Lemma daily_report_record_row (client : GoogleAdsClient) customer_id report date i item :
  yielded (daily_report to_dict date_predicate client customer_id report date) !! i
    = Some item →
  ∃ row data,
    streamed_rows date_predicate client customer_id report date !! i = Some row
    ∧ row_data to_dict row = Ok data
    ∧ item = filter (λ kv, kv.1 ∈ allowed_keys_of report) data.
Proof.
  intros Hi.
  destruct (daily_report_trace client customer_id report date) as (ds & Hds & Hy & _).
  rewrite Hy in Hi. change (map ?f ?l) with (f <$> l) in Hi.
  apply list_lookup_fmap_Some in Hi as (data & -> & Hdata).
  destruct (GenFacts.map_result_lookup _ _ _ _ _ Hds Hdata) as (row & Hrow & Hok).
  apply lookup_take_Some in Hrow as [Hrow _]. eauto.
Qed.

(** C7. The query [daily_report] sends selects the comma-joined
    dimensions, then metrics, then segments of the report, from the
    report's resource, where the date predicate over [segments.date] of
    the cursor's last and end values holds; the client is asked nothing
    but this query for this customer. *)
Theorem daily_report_query (client : GoogleAdsClient) customer_id report date :
  let query :=
    newline +:+ "        SELECT" +:+ newline +:+
    "            "
      +:+ Str.join ", " (dimensions report ++ metrics report ++ segments report)
      +:+ newline +:+
    "        FROM" +:+ newline +:+
    "            " +:+ resource report +:+ newline +:+
    "        WHERE" +:+ newline +:+
    "            "
      +:+ date_predicate "segments.date" (last_value date) (end_value date)
      +:+ newline +:+
    "    " in
  query_of date_predicate report date = query
  ∧ daily_report to_dict date_predicate client customer_id report date
    = Gen.for_each (concat (map results (search_stream client customer_id query)))
        (λ row, Gen.eval (row_data to_dict row) (λ data,
           Gen.yield (filter (λ kv, kv.1 ∈ allowed_keys_of report) data)))
  ∧ ∀ other : GoogleAdsClient,
      search_stream other customer_id query = search_stream client customer_id query →
      daily_report to_dict date_predicate other customer_id report date
      = daily_report to_dict date_predicate client customer_id report date.
Proof.
  split; [reflexivity|]. split; [apply daily_report_rows|].
  intros other H. rewrite !daily_report_rows. unfold streamed_rows.
  change (query_of date_predicate report date) with
    (newline +:+ "        SELECT" +:+ newline +:+
     "            "
       +:+ Str.join ", " (dimensions report ++ metrics report ++ segments report)
       +:+ newline +:+
     "        FROM" +:+ newline +:+
     "            " +:+ resource report +:+ newline +:+
     "        WHERE" +:+ newline +:+
     "            "
       +:+ date_predicate "segments.date" (last_value date) (end_value date)
       +:+ newline +:+
     "    ").
  by rewrite H.
Qed.


(** C5. Where the flattened row has the key [segments_date], its value is
    parsed by [strptime] with [%Y-%m-%d] and the parsed datetime replaces
    it before the filter ([2024-03-01] gives 1 March 2024, and so does the
    ISO text of every valid date give that date); a value that
    [strptime] refuses ([03/01/2024]) makes the generator raise that error
    at that row, with no record for it; a row without the key is filtered
    as it is. Every row whose date parses, or that has no date, gets its
    record, as long as no row before it was refused; when no row is
    refused the generator ends without error with one record per row. *)
Theorem daily_report_segments_date (client : GoogleAdsClient) customer_id report date :
  let rows := streamed_rows date_predicate client customer_id report date in
  let out := daily_report to_dict date_predicate client customer_id report date in
  let declared := filter (λ kv : pykey * value, kv.1 ∈ allowed_keys_of report) in
  let parses := λ row : Row,
    match Flatten.flatten (to_dict row) !! KStr "segments_date" with
    | Some v => ∃ parsed, Strptime.strptime v = Ok parsed
    | None => True
    end in
  (∀ i item, yielded out !! i = Some item →
     ∃ row, rows !! i = Some row
       ∧ match Flatten.flatten (to_dict row) !! KStr "segments_date" with
         | Some v =>
             ∃ parsed, Strptime.strptime v = Ok parsed
               ∧ item = declared (<[KStr "segments_date" := VDatetime parsed]>
                                    (Flatten.flatten (to_dict row)))
         | None => item = declared (Flatten.flatten (to_dict row))
         end)
  ∧ (∀ e, raised out = Some e →
       ∃ row v, rows !! length (yielded out) = Some row
                ∧ Flatten.flatten (to_dict row) !! KStr "segments_date" = Some v
                ∧ Strptime.strptime v = Raise e)
  ∧ (∀ i row v e,
       rows !! i = Some row →
       Flatten.flatten (to_dict row) !! KStr "segments_date" = Some v →
       Strptime.strptime v = Raise e →
       length (yielded out) ≤ i ∧ ∃ e', raised out = Some e')
  ∧ Strptime.strptime (VStr "2024-03-01") = Ok (mkDatetime 2024 3 1 0 0 0)
  ∧ Strptime.strptime (VStr "03/01/2024")
    = Raise (ValueError "time data does not match format '%Y-%m-%d'")
  ∧ (∀ y m d,
       (1 ≤ y ≤ 9999)%Z → (1 ≤ m ≤ 12)%Z → (1 ≤ d ≤ Strptime.days_in_month y m)%Z →
       Strptime.strptime (VStr (Strptime.isoformat y m d))
       = Ok (mkDatetime y m d 0 0 0))
  ∧ (∀ i row,
       rows !! i = Some row →
       (∀ j row', j ≤ i → rows !! j = Some row' → parses row') →
       ∃ item, yielded out !! i = Some item
         ∧ match Flatten.flatten (to_dict row) !! KStr "segments_date" with
           | Some v =>
               ∃ parsed, Strptime.strptime v = Ok parsed
                 ∧ item = declared (<[KStr "segments_date" := VDatetime parsed]>
                                      (Flatten.flatten (to_dict row)))
           | None => item = declared (Flatten.flatten (to_dict row))
           end)
  ∧ ((∀ i row, rows !! i = Some row → parses row) →
     raised out = None ∧ length (yielded out) = length rows).
Proof.
  intros rows out declared parses.
  assert (Hrec : ∀ i item, yielded out !! i = Some item →
     ∃ row, rows !! i = Some row
       ∧ match Flatten.flatten (to_dict row) !! KStr "segments_date" with
         | Some v =>
             ∃ parsed, Strptime.strptime v = Ok parsed
               ∧ item = declared (<[KStr "segments_date" := VDatetime parsed]>
                                    (Flatten.flatten (to_dict row)))
         | None => item = declared (Flatten.flatten (to_dict row))
         end).
  { intros i item Hi.
    destruct (daily_report_record_row _ _ _ _ _ _ Hi) as (row & data & Hrow & Hok & ->).
    exists row. split; [done|]. pose proof (row_data_cases row) as Hc.
    destruct (Flatten.flatten (to_dict row) !! KStr "segments_date") as [v|].
    - destruct (Strptime.strptime v) as [parsed|e].
      + exists parsed. split; [done|]. rewrite Hok in Hc. by injection Hc as ->.
      + rewrite Hok in Hc. discriminate.
    - rewrite Hok in Hc. by injection Hc as ->. }
  assert (Hfail : ∀ i row v e,
       rows !! i = Some row →
       Flatten.flatten (to_dict row) !! KStr "segments_date" = Some v →
       Strptime.strptime v = Raise e →
       length (yielded out) ≤ i).
  { intros i row v e Hrow Hv He.
    destruct (decide (length (yielded out) ≤ i)) as [|Hlt]; [done|].
    destruct (lookup_lt_is_Some_2 (yielded out) i) as [item Hi]; [lia|].
    destruct (Hrec _ _ Hi) as (row' & Hrow' & Hm).
    rewrite Hrow in Hrow'. injection Hrow' as <-.
    rewrite Hv in Hm. destruct Hm as (parsed & Hp & _).
    rewrite He in Hp. discriminate. }
  destruct (daily_report_trace client customer_id report date) as (ds & _ & _ & Hr).
  fold rows out in Hr.
  assert (Hok : ∀ row, parses row → ∀ e, row_data to_dict row ≠ Raise e).
  { intros row Hp e. subst parses. cbv beta in Hp.
    pose proof (row_data_cases row) as Hc.
    destruct (Flatten.flatten (to_dict row) !! KStr "segments_date") as [v|].
    - destruct Hp as [parsed Hp]. rewrite Hp in Hc. by rewrite Hc.
    - by rewrite Hc. }
  assert (Hget : ∀ i row,
       rows !! i = Some row →
       (∀ j row', j ≤ i → rows !! j = Some row' → parses row') →
       is_Some (yielded out !! i)).
  { intros i row Hrow Hbefore. apply lookup_lt_is_Some_2.
    destruct (raised out) as [e|].
    - destruct Hr as (bad & Hbad & Hraise).
      destruct (decide (i < length (yielded out))) as [|Hge]; [done|].
      exfalso. apply (Hok bad) with e; [|done].
      apply (Hbefore (length (yielded out))); [lia | done].
    - rewrite Hr. by eapply lookup_lt_Some. }
  split; [exact Hrec|]. split;
    [|split; [|split; [exact strptime_iso|
                split; [exact strptime_slashes|
                  split; [exact StrptimeFacts.strptime_isoformat | split]]]]].
  - intros e E. rewrite E in Hr. destruct Hr as (row & Hrow & Hraise).
    pose proof (row_data_cases row) as Hc.
    destruct (Flatten.flatten (to_dict row) !! KStr "segments_date") as [v|] eqn:Hv;
      [|rewrite Hraise in Hc; discriminate].
    exists row, v. split; [done|]. split; [done|].
    destruct (Strptime.strptime v); rewrite Hraise in Hc; [discriminate|].
    by injection Hc as ->.
  - intros i row v e Hrow Hv He. split; [by eapply Hfail|].
    destruct (raised out) as [e'|]; [by eexists|].
    pose proof (Hfail _ _ _ _ Hrow Hv He). apply lookup_lt_Some in Hrow. lia.
  - intros i row Hrow Hbefore.
    destruct (Hget i row Hrow Hbefore) as [item Hi]. exists item. split; [done|].
    destruct (Hrec _ _ Hi) as (row' & Hrow' & Hm).
    rewrite Hrow in Hrow'. by injection Hrow' as <-.
  - intros Hall.
    assert (Hnone : raised out = None).
    { destruct (raised out) as [e|]; [|done].
      destruct Hr as (bad & Hbad & Hraise). exfalso.
      apply (Hok bad) with e; [by eapply Hall | done]. }
    split; [done|]. by rewrite Hnone in Hr.
Qed.

Lemma for_each_yield {A B} (h : B → A) (xs : list B) :
  Gen.for_each xs (λ x, Gen.yield (h x)) = mkGenerator (map h xs) None.
Proof.
  induction xs as [|x xs IH]; simpl; [done|]. rewrite IH. done.
Qed.

(** Without a custom spec the source registers the catalog, entry by
    entry. *)
Lemma google_ads_builtin (client : GoogleAdsClient) customer_id date :
  google_ads to_dict date_predicate client customer_id date None
  = mkGenerator
      (map (λ '(report_name, report),
              dlt_resource to_dict date_predicate report_name "merge"
                (primary_keys report) client customer_id report date)
           BUILTIN_REPORTS)
      None.
Proof.
  unfold google_ads. rewrite GenFacts.seq_done_l.
  rewrite <- for_each_yield. f_equal.
Qed.

Lemma click_allowed_keys :
  allowed_keys_of click_report_daily
  = list_to_set (KStr <$> ["click_view_gclid"; "customer_id"; "ad_group_id";
                           "campaign_id"; "metrics_clicks"]).
Proof. reflexivity. Qed.

(** C8. The catalog entry [click_report_daily] has resource [click_view],
    the four dimensions, the metric [metrics.clicks] and no segments; the
    source registers it once, under the primary key of the four
    underscored dimensions; and when the stream for its query is one
    batch of one matching row, its generator yields exactly one record,
    whose keys are the four underscored dimensions and [metrics_clicks],
    with the row's values. *)
Theorem click_report_daily_end_to_end (client : GoogleAdsClient) customer_id date row :
  search_stream client customer_id (query_of date_predicate click_report_daily date)
    = [mkBatch [row]] →
  click_row_matches to_dict row →
  click_report_daily
  = {| resource := "click_view";
       dimensions := ["click_view.gclid"; "customer.id"; "ad_group.id"; "campaign.id"];
       metrics := ["metrics.clicks"];
       segments := [] |}
  ∧ ∃ unit,
      filter (λ u, name u = "click_report_daily")
        (yielded (google_ads to_dict date_predicate client customer_id date None))
      = [unit]
      ∧ raised (google_ads to_dict date_predicate client customer_id date None) = None
      ∧ write_disposition unit = "merge"
      ∧ primary_key unit
        = ["click_view_gclid"; "customer_id"; "ad_group_id"; "campaign_id"]
      ∧ ∃ item,
          items unit = mkGenerator [item] None
          ∧ dom item
            = list_to_set (KStr <$> ["click_view_gclid"; "customer_id"; "ad_group_id";
                                     "campaign_id"; "metrics_clicks"])
          ∧ ∀ k v, item !! k = Some v → Flatten.flatten (to_dict row) !! k = Some v.
Proof.
  intros Hstream [Hkeys Hnodate]. split; [reflexivity|].
  rewrite google_ads_builtin. simpl yielded. simpl raised.
  eexists. split; [reflexivity|]. split; [reflexivity|].
  split; [reflexivity|]. split; [reflexivity|]. simpl items.
  rewrite daily_report_rows. unfold streamed_rows. rewrite Hstream. simpl.
  unfold row_data. rewrite Hnodate. simpl.
  eexists. split; [reflexivity|]. split.
  - rewrite click_allowed_keys. apply set_eq. intros k.
    rewrite elem_of_dom. unfold is_Some.
    setoid_rewrite map_lookup_filter_Some. cbn [fst]. split.
    + intros (v & _ & Hk). exact Hk.
    + intros Hk. rewrite Forall_forall in Hkeys.
      assert (Hk' : k ∈ (list_to_set
                (KStr <$> ["click_view_gclid"; "customer_id"; "ad_group_id";
                           "campaign_id"; "metrics_clicks"]) : gset pykey))
        by exact Hk.
      apply elem_of_list_to_set, list_elem_of_fmap in Hk' as (s & -> & Hs).
      destruct (Hkeys s Hs) as [v Hv]. exists v. split; [done | exact Hk].
  - by intros k v [? _]%map_lookup_filter_Some.
Qed.

(** C1, on the code. With a custom spec the source yields no resource at
    all: the call that would bind the custom report's generator reads the
    local [report], which only the loop over the catalog assigns, and so
    raises; a spec the parser refuses raises the parser's error. *)
Theorem google_ads_custom_spec_raises (client : GoogleAdsClient) customer_id date spec :
  yielded (google_ads to_dict date_predicate client customer_id date (Some spec)) = []
  ∧ raised (google_ads to_dict date_predicate client customer_id date (Some spec))
    = Some match from_spec spec with
           | Ok _ => UnboundLocalError "report"
           | Raise e => e
           end
  ∧ google_ads to_dict date_predicate client customer_id date
      (Some "custom:campaign:campaign.id:clicks")
    = mkGenerator [] (Some (UnboundLocalError "report")).
Proof.
  unfold google_ads. split; [|split; [|reflexivity]];
    destruct (from_spec spec); reflexivity.
Qed.

End SourceFacts.

(** ** Sample runs *)

Lemma click_report_daily_end_to_end_witness :
  let client := one_batch_client [click_row] in
  search_stream client "1" (query_of sample_predicate click_report_daily no_cursor)
    = [mkBatch [click_row]]
  ∧ click_row_matches id click_row
  ∧ ∃ unit,
      filter (λ u, name u = "click_report_daily")
        (yielded (google_ads id sample_predicate client "1" no_cursor None)) = [unit]
      ∧ raised (google_ads id sample_predicate client "1" no_cursor None) = None
      ∧ write_disposition unit = "merge"
      ∧ primary_key unit
        = ["click_view_gclid"; "customer_id"; "ad_group_id"; "campaign_id"]
      ∧ ∃ item,
          items unit = mkGenerator [item] None
          ∧ dom item
            = list_to_set (KStr <$> ["click_view_gclid"; "customer_id"; "ad_group_id";
                                     "campaign_id"; "metrics_clicks"])
          ∧ ∀ k v, item !! k = Some v → Flatten.flatten (id click_row) !! k = Some v.
Proof.
  intros client.
  assert (H1 : search_stream client "1"
                 (query_of sample_predicate click_report_daily no_cursor)
               = [mkBatch [click_row]]) by reflexivity.
  assert (H2 : click_row_matches id click_row).
  { split; [|vm_compute; reflexivity].
    repeat (apply List.Forall_cons; [vm_compute; eexists; reflexivity|]).
    apply List.Forall_nil. }
  split; [exact H1|]. split; [exact H2|].
  apply (click_report_daily_end_to_end id sample_predicate client "1" no_cursor
           click_row H1 H2).
Defined.


(** * Further properties *)

(** ** More on strings *)

Module StrMore.
Import Str.

Lemma count_lstrip_le c s : count c (lstrip s) ≤ count c s.
Proof.
  induction s as [|a s IH]; [done|]. simpl.
  destruct (isspace a); simpl; lia.
Qed.

Lemma count_rstrip_le c s : count c (rstrip s) ≤ count c s.
Proof.
  induction s as [|a s IH]; [done|]. simpl.
  destruct (rstrip s) as [|b kept].
  - destruct (isspace a); simpl in *; lia.
  - simpl in *. lia.
Qed.

Lemma count_strip_zero c s : count c s = 0 → count c (strip s) = 0.
Proof.
  intros H. unfold strip.
  pose proof (count_rstrip_le c (lstrip s)). pose proof (count_lstrip_le c s). lia.
Qed.

Lemma starts_blank_app s t :
  s ≠ "" → starts_blank (s +:+ t) = starts_blank s.
Proof. by destruct s. Qed.

Lemma ends_blank_app s t :
  ends_blank (s +:+ t) = match t with "" => ends_blank s | _ => ends_blank t end.
Proof.
  induction s as [|a s IH].
  - rewrite StrFacts.app_empty_l. by destruct t.
  - rewrite StrFacts.app_cons.
    change (ends_blank (String a (s +:+ t)))
      with (match s +:+ t with "" => isspace a | _ => ends_blank (s +:+ t) end).
    destruct s as [|b s]; [by destruct t|].
    rewrite StrFacts.app_cons in *. rewrite IH. by destruct t.
Qed.

Lemma count_join_zero c sep parts :
  count c sep = 0 → Forall (λ p, count c p = 0) parts →
  count c (join sep parts) = 0.
Proof.
  intros Hsep. induction 1 as [|p parts Hp Hall IH]; [done|].
  destruct parts as [|q parts]; [done|].
  change (join sep (p :: q :: parts)) with (p +:+ sep +:+ join sep (q :: parts)).
  rewrite !StrFacts.count_app. lia.
Qed.

(** Splitting what was joined gives the pieces back, when no piece holds
    the separator and there is at least one piece. *)
Lemma split_join sep parts :
  parts ≠ [] → Forall (λ p, count sep p = 0) parts →
  split sep (join (String sep "") parts) = parts.
Proof.
  intros Hne Hall. induction Hall as [|p parts Hp Hall IH]; [done|].
  destruct parts as [|q parts].
  - by apply StrFacts.split_whole.
  - change (join (String sep "") (p :: q :: parts))
      with (p +:+ String sep (join (String sep "") (q :: parts))).
    rewrite StrFacts.split_app by done. by rewrite IH.
Qed.

(** The pieces of a split hold no character the text does not hold. *)
Lemma split_count_other c sep s :
  count c s = 0 → Forall (λ p, count c p = 0) (split sep s).
Proof.
  induction s as [|a s IH]; simpl; intros H.
  - by constructor.
  - assert (Ha : Ascii.eqb a c = false) by (destruct (Ascii.eqb a c); [done | done]).
    rewrite Ha in H. simpl in H. specialize (IH H).
    destruct (Ascii.eqb a sep).
    + by constructor.
    + destruct (split sep s) as [|piece pieces].
      * constructor; [|done]. simpl. by rewrite Ha.
      * inversion IH; subst. constructor; [|done]. simpl. by rewrite Ha.
Qed.

Lemma replace_fixed old new s : count old s = 0 → replace old new s = s.
Proof.
  induction s as [|a s IH]; [done|]. simpl.
  destruct (Ascii.eqb a old); [done|]. simpl. intros H. by rewrite IH.
Qed.

Lemma replace_app old new s t :
  replace old new (s +:+ t) = replace old new s +:+ replace old new t.
Proof.
  induction s as [|a s IH]; [done|].
  rewrite StrFacts.app_cons. simpl. rewrite IH. done.
Qed.

Lemma split_nonempty sep s : split sep s ≠ [].
Proof.
  pose proof (StrFacts.split_length sep s). by destruct (split sep s).
Qed.

End StrMore.

(** ** More on the spec parser *)

Lemma parse_dimension_inv d d' :
  _parse_dimension d = Ok d' → d' = Str.strip d ∧ good_dimension d.
Proof.
  unfold _parse_dimension, good_dimension.
  destruct (Nat.eqb_spec (Str.count "." (Str.strip d)) 0); [done|].
  destruct (Str.startswith (Str.strip d) "segments."); [done|].
  by intros [= <-].
Qed.

(** X1. A dimension [_parse_dimension] accepts comes back without the
    blanks at its ends, with a dot and not under [segments.], and parsing
    it again returns it unchanged. *)
Theorem parse_dimension_canonical (d d' : string) :
  _parse_dimension d = Ok d' →
  Str.starts_blank d' = false ∧ Str.ends_blank d' = false
  ∧ Str.count "." d' ≠ 0 ∧ Str.startswith d' "segments." = false
  ∧ _parse_dimension d' = Ok d'.
Proof.
  intros [-> [Hdot Hseg]]%parse_dimension_inv.
  split; [apply StrFacts.strip_starts|]. split; [apply StrFacts.strip_ends|].
  split; [done|]. split; [done|].
  rewrite <- (StrFacts.strip_idemp d) at 2. apply parse_dimension_good.
  unfold good_dimension. by rewrite StrFacts.strip_idemp.
Qed.

Lemma parse_dimension_canonical_witness :
  _parse_dimension "  campaign.id " = Ok "campaign.id"
  ∧ _parse_dimension "campaign.id" = Ok "campaign.id".
Proof.
  assert (H : _parse_dimension "  campaign.id " = Ok "campaign.id") by reflexivity.
  split; [exact H|].
  exact (proj2 (proj2 (proj2 (proj2
           (parse_dimension_canonical "  campaign.id " "campaign.id" H))))).
Defined.

Lemma parse_metric_shape m :
  Str.starts_blank (_parse_metric m) = false
  ∧ Str.ends_blank (_parse_metric m) = false.
Proof.
  destruct (parse_metric_cases m) as [[_ ->]|[_ ->]].
  - split; [apply StrFacts.strip_starts | apply StrFacts.strip_ends].
  - split; [reflexivity|].
    rewrite StrMore.ends_blank_app.
    pose proof (StrFacts.strip_ends m). by destruct (Str.strip m).
Qed.

(** X2. [_parse_metric] is idempotent: a metric it returned starts with
    [metrics.], has no blank at either end, and is returned unchanged when
    parsed again, so the prefix is never added twice. *)
Theorem parse_metric_idempotent (m : string) :
  _parse_metric (_parse_metric m) = _parse_metric m
  ∧ Str.startswith (_parse_metric m) "metrics." = true
  ∧ Str.starts_blank (_parse_metric m) = false
  ∧ Str.ends_blank (_parse_metric m) = false.
Proof.
  destruct (parse_metric_shape m) as [Hs He].
  split; [|split; [apply parse_metric_prefixed | done]].
  unfold _parse_metric at 1.
  rewrite (StrFacts.strip_fixed _ Hs He), parse_metric_prefixed. reflexivity.
Qed.

(** What a successful parse looks like, whatever the spec string. *)
Lemma from_spec_inv spec report :
  from_spec spec = Ok report →
  ∃ p dims mets,
    Str.count ":" spec = 3
    ∧ Str.split ":" spec = [p; resource report; dims; mets]
    ∧ Forall good_dimension (Str.split "," dims)
    ∧ dimensions report = map Str.strip (Str.split "," dims)
    ∧ metrics report = map _parse_metric (Str.split "," mets)
    ∧ segments report = ["segments.date"].
Proof.
  intros H. destruct (decide (Str.count ":" spec = 3)) as [H3|H3].
  2:{ by rewrite (from_spec_format _ H3) in H. }
  destruct (split_three _ H3) as (p & res & dims & mets & Hsplit).
  rewrite (from_spec_fields _ _ _ _ _ H3 Hsplit) in H.
  destruct (map_result _parse_dimension (Str.split "," dims)) as [ds|] eqn:Hds;
    simpl in H; [|done].
  injection H as <-. exists p, dims, mets. cbn [resource dimensions metrics segments].
  assert (Hall : Forall good_dimension (Str.split "," dims)
                 ∧ ds = map Str.strip (Str.split "," dims)).
  { clear Hsplit. revert ds Hds.
    induction (Str.split "," dims) as [|d l IH]; intros ds Hds; simpl in Hds.
    - injection Hds as <-. by split.
    - destruct (_parse_dimension d) as [d'|] eqn:Hd; simpl in Hds; [|done].
      destruct (map_result _parse_dimension l) as [ds'|]; simpl in Hds; [|done].
      injection Hds as <-. apply parse_dimension_inv in Hd as [-> Hg].
      destruct (IH ds' eq_refl) as [Hl ->]. split; [by constructor | done]. }
  destruct Hall as [Hgood ->]. done.
Qed.

Lemma parse_metric_counts c m :
  Str.count c "metrics." = 0 → Str.count c m = 0 → Str.count c (_parse_metric m) = 0.
Proof.
  intros Hp Hm. pose proof (StrMore.count_strip_zero c m Hm) as Hs.
  destruct (parse_metric_cases m) as [[_ ->]|[_ ->]]; [done|].
  rewrite StrFacts.count_app. lia.
Qed.

Lemma canonical_dimensions l :
  Forall good_dimension l →
  Forall (λ d, Str.count "," d = 0) l → Forall (λ d, Str.count ":" d = 0) l →
  Forall canonical_dimension (map Str.strip l).
Proof.
  induction 1 as [|d l [Hdot Hseg] _ IH]; intros Hcomma Hcolon; [constructor|].
  apply Forall_cons in Hcomma as [Hc1 Hc2]. apply Forall_cons in Hcolon as [Hk1 Hk2].
  simpl. constructor; [|by apply IH].
  repeat split; auto using StrFacts.strip_starts, StrFacts.strip_ends,
    StrMore.count_strip_zero.
Qed.

Lemma canonical_metrics l :
  Forall (λ m, Str.count "," m = 0) l → Forall (λ m, Str.count ":" m = 0) l →
  Forall canonical_metric (map _parse_metric l).
Proof.
  induction l as [|m l IH]; intros Hcomma Hcolon; [constructor|].
  apply Forall_cons in Hcomma as [Hc1 Hc2]. apply Forall_cons in Hcolon as [Hk1 Hk2].
  simpl. constructor; [|by apply IH].
  destruct (parse_metric_shape m) as [? ?].
  repeat split; auto using parse_metric_prefixed, parse_metric_counts.
Qed.

(** X4. Every report [from_spec] returns keeps the invariant of the data
    model: the resource has no colon; there is one dimension per entry of
    the third field and one metric per entry of the fourth (one more than
    the commas, nothing dropped or merged); each dimension is canonical
    and each metric is canonical; the segments are [segments.date]. *)
Theorem from_spec_invariant (spec : string) (report : Report) :
  from_spec spec = Ok report →
  Str.count ":" (resource report) = 0
  ∧ (∃ dims mets,
       Str.split ":" spec !! 2 = Some dims ∧ Str.split ":" spec !! 3 = Some mets
       ∧ length (dimensions report) = S (Str.count "," dims)
       ∧ length (metrics report) = S (Str.count "," mets))
  ∧ Forall canonical_dimension (dimensions report)
  ∧ Forall canonical_metric (metrics report)
  ∧ segments report = ["segments.date"].
Proof.
  intros (p & dims & mets & H3 & Hsplit & Hgood & Hd & Hm & Hs)%from_spec_inv.
  pose proof (StrFacts.split_pieces ":" spec) as Hpieces. rewrite Hsplit in Hpieces.
  apply Forall_cons in Hpieces as [_ Hpieces].
  apply Forall_cons in Hpieces as [Hres Hpieces].
  apply Forall_cons in Hpieces as [Hdims Hpieces].
  apply Forall_cons in Hpieces as [Hmets _].
  split; [done|]. split.
  { exists dims, mets. rewrite Hsplit, Hd, Hm, !length_map, !StrFacts.split_length.
    done. }
  split; [|split; [|done]].
  - rewrite Hd. apply canonical_dimensions; [done| |].
    + apply StrFacts.split_pieces.
    + by apply StrMore.split_count_other.
  - rewrite Hm. apply canonical_metrics.
    + apply StrFacts.split_pieces.
    + by apply StrMore.split_count_other.
Qed.

Lemma from_spec_invariant_witness :
  ∃ report, from_spec "x: campaign : a.b ,c.d:clicks" = Ok report
            ∧ resource report = " campaign "
            ∧ Forall canonical_dimension (dimensions report).
Proof.
  assert (H : from_spec "x: campaign : a.b ,c.d:clicks"
              = Ok {| resource := " campaign "; dimensions := ["a.b"; "c.d"];
                      metrics := ["metrics.clicks"]; segments := ["segments.date"] |})
    by reflexivity.
  eexists. split; [exact H|]. split; [reflexivity|].
  exact (proj1 (proj2 (proj2 (from_spec_invariant _ _ H)))).
Defined.

Lemma parse_dimension_fixed d : canonical_dimension d → _parse_dimension d = Ok d.
Proof.
  intros (Hs & He & Hdot & Hseg & _).
  rewrite <- (StrFacts.strip_fixed d Hs He) at 2. apply parse_dimension_good.
  unfold good_dimension. by rewrite (StrFacts.strip_fixed d Hs He).
Qed.

Lemma parse_metric_fixed m : canonical_metric m → _parse_metric m = m.
Proof.
  intros (Hp & Hs & He & _). unfold _parse_metric.
  by rewrite (StrFacts.strip_fixed m Hs He), Hp.
Qed.

(** A report that keeps the invariant is what its spec string parses to. *)
Lemma from_spec_of_canonical report :
  Str.count ":" (resource report) = 0 →
  dimensions report ≠ [] → Forall canonical_dimension (dimensions report) →
  metrics report ≠ [] → Forall canonical_metric (metrics report) →
  segments report = ["segments.date"] →
  from_spec (spec_of_report report) = Ok report.
Proof.
  intros Hres Hdne Hd Hmne Hm Hseg. unfold spec_of_report.
  destruct (split_assembled "custom" (resource report)
              (Str.join "," (dimensions report)) (Str.join "," (metrics report)))
    as [H3 Hsplit]; try done.
  { apply StrMore.count_join_zero; [done|].
    eapply Forall_impl; [exact Hd|]. by intros d (_ & _ & _ & _ & _ & ?). }
  { apply StrMore.count_join_zero; [done|].
    eapply Forall_impl; [exact Hm|]. by intros m (_ & _ & _ & _ & ?). }
  change ("custom" +:+ ":" +:+ ?x) with ("custom:" +:+ x) in H3, Hsplit.
  rewrite (from_spec_fields _ _ _ _ _ H3 Hsplit).
  rewrite !(StrMore.split_join ","); try done.
  2:{ eapply Forall_impl; [exact Hd|]. by intros d (_ & _ & _ & _ & ? & _). }
  2:{ eapply Forall_impl; [exact Hm|]. by intros m (_ & _ & _ & ? & _). }
  rewrite (map_result_all _ id).
  2:{ eapply Forall_impl; [exact Hd|]. apply parse_dimension_fixed. }
  simpl. rewrite map_id.
  assert (Hmap : map _parse_metric (metrics report) = metrics report).
  { clear -Hm. induction Hm as [|m l Hm1 _ IH]; [done|].
    simpl. by rewrite (parse_metric_fixed _ Hm1), IH. }
  rewrite Hmap. destruct report; simpl in *. by subst.
Qed.

(** X3. Round trip: a report [from_spec] returned, written back in the
    documented format (fields joined by colons, lists by commas), parses
    to the same report. *)
Theorem from_spec_round_trip (spec : string) (report : Report) :
  from_spec spec = Ok report →
  from_spec (spec_of_report report) = Ok report.
Proof.
  intros (p & dims & mets & H3 & Hsplit & Hgood & Hd & Hm & Hs)%from_spec_inv.
  pose proof (StrFacts.split_pieces ":" spec) as Hpieces. rewrite Hsplit in Hpieces.
  apply Forall_cons in Hpieces as [_ Hpieces].
  apply Forall_cons in Hpieces as [Hres Hpieces].
  apply Forall_cons in Hpieces as [Hdims Hpieces].
  apply Forall_cons in Hpieces as [Hmets _].
  apply from_spec_of_canonical; try done.
  - rewrite Hd. pose proof (StrMore.split_nonempty "," dims).
    by destruct (Str.split "," dims).
  - rewrite Hd. apply canonical_dimensions; [done| |].
    + apply StrFacts.split_pieces.
    + by apply StrMore.split_count_other.
  - rewrite Hm. pose proof (StrMore.split_nonempty "," mets).
    by destruct (Str.split "," mets).
  - rewrite Hm. apply canonical_metrics.
    + apply StrFacts.split_pieces.
    + by apply StrMore.split_count_other.
Qed.

Lemma from_spec_round_trip_witness :
  from_spec
    (spec_of_report {| resource := "campaign"; dimensions := ["campaign.id"; "customer.id"];
                       metrics := ["metrics.clicks"]; segments := ["segments.date"] |})
  = Ok {| resource := "campaign"; dimensions := ["campaign.id"; "customer.id"];
          metrics := ["metrics.clicks"]; segments := ["segments.date"] |}.
Proof.
  apply (from_spec_round_trip "any:campaign: campaign.id , customer.id:  clicks").
  reflexivity.
Defined.

Lemma map_result_first_raise {A B : Type} (f : A → result B) good x rest e :
  Forall (λ a, ∃ b, f a = Ok b) good → f x = Raise e →
  map_result f (good ++ x :: rest) = Raise e.
Proof.
  intros Hgood Hx. induction Hgood as [|a l [b Hb] _ IH]; simpl.
  - by rewrite Hx.
  - by rewrite Hb, IH.
Qed.

(** X5. With three colons, the first dimension entry that breaks the
    rule decides the error: the dot message when, trimmed, it has no dot,
    the segments message otherwise. What comes after it, and the metrics
    field, are not looked at. *)
Theorem from_spec_first_bad_dimension (spec dims : string) (good : list string)
    (d : string) (rest : list string) :
  Str.count ":" spec = 3 →
  Str.split ":" spec !! 2 = Some dims →
  Str.split "," dims = good ++ d :: rest →
  Forall good_dimension good →
  bad_dimension d →
  from_spec spec
  = Raise (if Str.count "." (Str.strip d) =? 0
           then dimension_dot_error else dimension_segment_error).
Proof.
  intros H3 Hdims Hentries Hgood Hbad.
  destruct (split_three _ H3) as (p & res & dims' & mets & Hsplit).
  rewrite Hsplit in Hdims. injection Hdims as ->.
  rewrite (from_spec_fields _ _ _ _ _ H3 Hsplit), Hentries.
  rewrite (map_result_first_raise _ _ _ _
             (if Str.count "." (Str.strip d) =? 0
              then dimension_dot_error else dimension_segment_error)); [done| |].
  - eapply Forall_impl; [exact Hgood|]. intros a Ha.
    exists (Str.strip a). by apply parse_dimension_good.
  - unfold _parse_dimension.
    destruct (Nat.eqb_spec (Str.count "." (Str.strip d)) 0) as [|Hne]; [done|].
    destruct Hbad as [|Hseg]; [done|]. by rewrite Hseg.
Qed.

Lemma from_spec_first_bad_dimension_witness :
  from_spec "custom:campaign:campaign.id, segments.date ,nodot:also bad"
  = Raise dimension_segment_error.
Proof.
  apply (from_spec_first_bad_dimension
           "custom:campaign:campaign.id, segments.date ,nodot:also bad"
           "campaign.id, segments.date ,nodot" ["campaign.id"] " segments.date " ["nodot"]).
  - reflexivity.
  - reflexivity.
  - reflexivity.
  - repeat constructor; vm_compute; congruence.
  - right. reflexivity.
Defined.

Lemma parse_dimension_strip d : _parse_dimension (Str.strip d) = _parse_dimension d.
Proof. unfold _parse_dimension. by rewrite StrFacts.strip_idemp. Qed.

Lemma parse_metric_strip m : _parse_metric (Str.strip m) = _parse_metric m.
Proof. unfold _parse_metric. by rewrite !StrFacts.strip_idemp. Qed.

Lemma map_result_strip l :
  map_result _parse_dimension (map Str.strip l) = map_result _parse_dimension l.
Proof.
  induction l as [|d l IH]; [done|]. simpl. by rewrite parse_dimension_strip, IH.
Qed.

Lemma map_metric_strip l : map _parse_metric (map Str.strip l) = map _parse_metric l.
Proof.
  induction l as [|m l IH]; [done|]. simpl. by rewrite parse_metric_strip, IH.
Qed.

(** X6. Blanks around the comma-separated entries do not matter: two spec
    strings with the same resource whose dimension entries, and whose
    metric entries, are equal once trimmed parse to the same result,
    report or error. *)
Theorem from_spec_ignores_blanks (p1 p2 res dims1 dims2 mets1 mets2 : string) :
  Str.count ":" p1 = 0 → Str.count ":" p2 = 0 → Str.count ":" res = 0 →
  Str.count ":" dims1 = 0 → Str.count ":" dims2 = 0 →
  Str.count ":" mets1 = 0 → Str.count ":" mets2 = 0 →
  map Str.strip (Str.split "," dims1) = map Str.strip (Str.split "," dims2) →
  map Str.strip (Str.split "," mets1) = map Str.strip (Str.split "," mets2) →
  from_spec (p1 +:+ ":" +:+ res +:+ ":" +:+ dims1 +:+ ":" +:+ mets1)
  = from_spec (p2 +:+ ":" +:+ res +:+ ":" +:+ dims2 +:+ ":" +:+ mets2).
Proof.
  intros Hp1 Hp2 Hres Hd1 Hd2 Hm1 Hm2 Hdims Hmets.
  destruct (split_assembled p1 res dims1 mets1) as [H31 Hs1]; try done.
  destruct (split_assembled p2 res dims2 mets2) as [H32 Hs2]; try done.
  rewrite (from_spec_fields _ _ _ _ _ H31 Hs1), (from_spec_fields _ _ _ _ _ H32 Hs2).
  rewrite <- (map_result_strip (Str.split "," dims1)), Hdims, map_result_strip.
  rewrite <- (map_metric_strip (Str.split "," mets1)), Hmets, map_metric_strip.
  reflexivity.
Qed.

Lemma from_spec_ignores_blanks_witness :
  from_spec ("custom" +:+ ":" +:+ "campaign" +:+ ":" +:+ " campaign.id , customer.id"
             +:+ ":" +:+ "clicks ")
  = from_spec ("custom" +:+ ":" +:+ "campaign" +:+ ":" +:+ "campaign.id,customer.id"
               +:+ ":" +:+ "clicks").
Proof.
  apply from_spec_ignores_blanks; reflexivity.
Defined.

(** ** What [strptime] accepts *)

Module StrptimeSound.
Import Strptime.

Lemma between_spec lo hi c :
  between lo hi c = true ↔ lo ≤ nat_of_ascii c ≤ hi.
Proof.
  unfold between. rewrite andb_true_iff, !Nat.leb_le. done.
Qed.

Lemma one_inv p s x :
  x ∈ one p s → ∃ a rest, s = String a rest ∧ x = (String a "", rest) ∧ p a = true.
Proof.
  unfold one. destruct s as [|a rest]; [by intros ?%elem_of_nil|].
  destruct (p a) eqn:E; [|by intros ?%elem_of_nil].
  intros ->%list_elem_of_singleton. eauto.
Qed.

Lemma seq_inv (r1 r2 : regex) s m r :
  (m, r) ∈ seq r1 r2 s →
  ∃ m1 s1 m2, (m1, s1) ∈ r1 s ∧ (m2, r) ∈ r2 s1 ∧ m = m1 +:+ m2.
Proof.
  unfold seq. intros ([m1 s1] & H & H1)%list_elem_of_bind.
  apply list_elem_of_bind in H as ([m2 s2] & H & H2).
  apply list_elem_of_singleton in H as [= -> ->]. eauto 10.
Qed.

Lemma alt_inv rs s x : x ∈ alt rs s → ∃ r, r ∈ rs ∧ x ∈ r s.
Proof. unfold alt. intros (r & ? & ?)%list_elem_of_bind. eauto. Qed.

(** The value of a decimal digit. *)
Lemma int_one a :
  isdigit a = true → int (String a "") = (Z.of_nat (nat_of_ascii a) - 48)%Z.
Proof. intros H. unfold int, int_go. rewrite H. lia. Qed.

Lemma int_two a b :
  isdigit a = true → isdigit b = true →
  int (String a (String b ""))
  = (10 * (Z.of_nat (nat_of_ascii a) - 48) + (Z.of_nat (nat_of_ascii b) - 48))%Z.
Proof. intros Ha Hb. unfold int, int_go. rewrite Ha, Hb. lia. Qed.

Lemma one_range lo hi s m r :
  (m, r) ∈ one (between lo hi) s → 48 ≤ lo → hi ≤ 57 →
  (Z.of_nat lo - 48 ≤ int m ≤ Z.of_nat hi - 48)%Z.
Proof.
  intros (a & rest & -> & [= -> ->] & Ha%between_spec)%one_inv Hlo Hhi.
  rewrite int_one by (apply between_spec; lia). lia.
Qed.

Lemma two_range plo phi qlo qhi s m r :
  (m, r) ∈ seq (one (between plo phi)) (one (between qlo qhi)) s →
  48 ≤ plo → phi ≤ 57 → 48 ≤ qlo → qhi ≤ 57 →
  (10 * (Z.of_nat plo - 48) + (Z.of_nat qlo - 48) ≤ int m
   ≤ 10 * (Z.of_nat phi - 48) + (Z.of_nat qhi - 48))%Z.
Proof.
  intros (m1 & s1 & m2 & H1 & H2 & ->)%seq_inv ? ? ? ?.
  apply one_inv in H1 as (a & rest & -> & [= -> ->] & Ha%between_spec).
  apply one_inv in H2 as (b & rest' & -> & [= -> ->] & Hb%between_spec).
  change (String a "" +:+ String b "") with (String a (String b "")).
  rewrite int_two by (apply between_spec; lia). lia.
Qed.

Lemma blank_digit_range s m r :
  (m, r) ∈ seq (one (between 32 32)) (one (between 49 57)) s →
  (1 ≤ int m ≤ 9)%Z.
Proof.
  intros (m1 & s1 & m2 & H1 & H2 & ->)%seq_inv.
  apply one_inv in H1 as (a & rest & -> & [= -> ->] & Ha%between_spec).
  apply one_inv in H2 as (b & rest' & -> & [= -> ->] & Hb%between_spec).
  change (String a "" +:+ String b "") with (String a (String b "")).
  unfold int, int_go.
  assert (Ea : isdigit a = false).
  { apply not_true_is_false. intros E%between_spec. lia. }
  assert (Eb : isdigit b = true) by (apply between_spec; lia).
  rewrite Ea, Eb. lia.
Qed.

Lemma group_m_range s m r : (m, r) ∈ group_m s → (1 ≤ int m ≤ 12)%Z.
Proof.
  intros (re & Hre & H)%alt_inv.
  repeat (apply elem_of_cons in Hre as [->|Hre]).
  - apply two_range in H; lia.
  - apply two_range in H; lia.
  - apply one_range in H; lia.
  - by apply elem_of_nil in Hre.
Qed.

Lemma group_d_range s m r : (m, r) ∈ group_d s → (1 ≤ int m ≤ 31)%Z.
Proof.
  intros (re & Hre & H)%alt_inv.
  repeat (apply elem_of_cons in Hre as [->|Hre]).
  - apply two_range in H; lia.
  - apply (two_range 49 50 48 57) in H; lia.
  - apply two_range in H; lia.
  - apply one_range in H; lia.
  - apply blank_digit_range in H; lia.
  - by apply elem_of_nil in Hre.
Qed.

Lemma group_Y_range s m r : (m, r) ∈ group_Y s → (0 ≤ int m ≤ 9999)%Z.
Proof.
  unfold group_Y.
  intros (m1 & s1 & m234 & H1 & H & ->)%seq_inv.
  apply seq_inv in H as (m2 & s2 & m34 & H2 & H & ->).
  apply seq_inv in H as (m3 & s3 & m4 & H3 & H4 & ->).
  apply one_inv in H1 as (a & ? & -> & [= -> ->] & Ha).
  apply one_inv in H2 as (b & ? & -> & [= -> ->] & Hb).
  apply one_inv in H3 as (c & ? & -> & [= -> ->] & Hc).
  apply one_inv in H4 as (d & ? & -> & [= -> ->] & Hd).
  change (String a "" +:+ String b "" +:+ String c "" +:+ String d "")
    with (String a (String b (String c (String d "")))).
  unfold int, int_go. rewrite Ha, Hb, Hc, Hd.
  apply between_spec in Ha, Hb, Hc, Hd. lia.
Qed.

(** Whatever [strptime] returns is a calendar date at midnight. *)
Lemma strptime_sound v dt : strptime v = Ok dt → valid_date dt.
Proof.
  unfold strptime. destruct v as [| | | |data_string| | |]; try done.
  destruct (format_regex_match data_string) as [[[[Y m] d] rest]|] eqn:Hmatch;
    [|done].
  unfold format_regex_match in Hmatch. apply head_Some_elem_of in Hmatch.
  apply list_elem_of_bind in Hmatch as ([Y' r1] & H & HY).
  apply list_elem_of_bind in H as ([? r2] & H & _).
  apply list_elem_of_bind in H as ([m' r3] & H & Hm).
  apply list_elem_of_bind in H as ([? r4] & H & _).
  apply list_elem_of_bind in H as ([d' r5] & H & Hd).
  apply list_elem_of_singleton in H as [= -> -> -> ->].
  apply group_Y_range in HY. apply group_m_range in Hm. apply group_d_range in Hd.
  destruct (negb (String.eqb r5 "")); [done|].
  destruct (Z.ltb_spec (int Y') 1); [done|].
  destruct (Z.ltb_spec (days_in_month (int Y') (int m')) (int d')); [done|].
  intros [= <-]. unfold valid_date. simpl. lia.
Qed.

End StrptimeSound.

(** ** More on flattening *)

Module FlattenMore.
Import Flatten.

Lemma store_lookup_notin separator key leaves :
  ∀ acc k,
    k ∉ map (λ pv, path_key separator key pv.1) leaves →
    store separator key acc leaves !! k = acc !! k.
Proof.
  induction leaves as [|[p x] leaves IH]; intros acc k Hk; [done|].
  change (store separator key acc ((p, x) :: leaves))
    with (store separator key (<[path_key separator key p := x]> acc) leaves).
  simpl in Hk. apply not_elem_of_cons in Hk as [Hne Hk].
  rewrite IH by done. by rewrite lookup_insert_ne.
Qed.

(** When no two leaves are given the same key, each leaf is found under
    its key. *)
Lemma store_lookup_nodup separator key leaves :
  ∀ acc path v,
    NoDup (map (λ pv, path_key separator key pv.1) leaves) →
    (path, v) ∈ leaves →
    store separator key acc leaves !! path_key separator key path = Some v.
Proof.
  induction leaves as [|[p x] leaves IH]; intros acc path v Hnd Hin.
  - by apply elem_of_nil in Hin.
  - change (store separator key acc ((p, x) :: leaves))
      with (store separator key (<[path_key separator key p := x]> acc) leaves).
    simpl in Hnd. apply NoDup_cons in Hnd as [Hfresh Hnd].
    apply elem_of_cons in Hin as [[= -> ->]|Hin]; [|by apply IH].
    rewrite store_lookup_notin by done. apply lookup_insert_eq.
Qed.

Lemma flatten_lookup_nodup nested_dict path v :
  NoDup (flat_keys nested_dict) →
  nested_dict ≠ [] →
  (path, v) ∈ leaf_paths (VDict nested_dict) →
  flatten nested_dict !! path_key "_" KNone path = Some v.
Proof.
  unfold flat_keys, flatten. intros Hnd Hne Hin.
  destruct nested_dict as [|kv rest]; [done|].
  simpl length. cbn [Nat.eqb]. rewrite FlattenFacts._flatten_leaves.
  by apply store_lookup_nodup.
Qed.

Lemma leaf_paths_leaf v : is_leaf v = true → leaf_paths v = [([], v)].
Proof.
  destruct v as [| | | | | |[|x xs]|[|kv items]]; try done; intros _; simpl;
    match goal with
    | |- context [if ?b then _ else _] => by destruct b
    | _ => reflexivity
    end.
Qed.

Lemma leaf_paths_dict_elem items k item path v :
  (k, item) ∈ items → (path, v) ∈ leaf_paths item →
  (KStr k :: path, v) ∈ leaf_paths (VDict items).
Proof.
  intros Hitem Hleaf.
  assert (Hloop :
    (KStr k :: path, v) ∈
      (fix each (items : list (string * value)) :=
         match items with
         | [] => []
         | (object_key, item) :: rest =>
             map (λ pv, (KStr object_key :: pv.1, pv.2)) (leaf_paths item)
             ++ each rest
         end) items).
  { induction items as [|[k' item'] l IH]; [by apply elem_of_nil in Hitem|].
    apply elem_of_app. apply elem_of_cons in Hitem as [[= <- <-]|Hitem].
    - left. change (map ?f ?l) with (f <$> l). apply list_elem_of_fmap.
      by exists (path, v).
    - right. by apply IH. }
  destruct items as [|kv items]; [by apply elem_of_nil in Hitem|]. exact Hloop.
Qed.

End FlattenMore.

(** ** More on the source and the generator *)

Section SourceMore.

Context {Row : Type}.
Variable to_dict : Row → pydict.
Variable date_predicate : string → option datetime → option datetime → string.

Local Abbreviation Client := (@GoogleAdsClient Row).

Lemma primary_key_allowed report k :
  k ∈ primary_keys report → KStr k ∈ allowed_keys_of report.
Proof.
  unfold primary_keys. change (map ?f ?l) with (f <$> l).
  intros (path & -> & Hin)%list_elem_of_fmap.
  apply allowed_keys_spec. exists path. split; [|done].
  apply elem_of_app in Hin as [?|?]; rewrite !elem_of_app; auto.
Qed.

(** X7. The columns of the primary key are never filtered out: every
    primary key of the report is a declared key, and in every record
    [daily_report] yields it holds what the row's flattened, date-parsed
    mapping holds under it. *)
Theorem daily_report_keeps_primary_keys (client : Client) customer_id report date :
  let rows := streamed_rows date_predicate client customer_id report date in
  let out := daily_report to_dict date_predicate client customer_id report date in
  (∀ k, k ∈ primary_keys report → KStr k ∈ allowed_keys_of report)
  ∧ ∀ i item, yielded out !! i = Some item →
      ∃ row data, rows !! i = Some row ∧ row_data to_dict row = Ok data
        ∧ ∀ k, k ∈ primary_keys report → item !! KStr k = data !! KStr k.
Proof.
  intros rows out. split; [apply primary_key_allowed|].
  intros i item Hi.
  destruct (daily_report_record_row _ _ _ _ _ _ _ _ Hi)
    as (row & data & Hrow & Hok & ->).
  exists row, data. split; [done|]. split; [done|]. intros k Hk.
  apply primary_key_allowed in Hk.
  destruct (data !! KStr k) as [v|] eqn:E.
  - by apply map_lookup_filter_Some.
  - apply map_lookup_filter_None. by left.
Qed.

(** X8. Only the sequence of rows matters: two runs for the same report
    whose streams hold the same rows in the same order, however they are
    cut into batches and whoever the customer is, yield the same records
    and end the same way. *)
Theorem daily_report_rebatching (client1 client2 : Client) customer1 customer2
    report date :
  streamed_rows date_predicate client1 customer1 report date
  = streamed_rows date_predicate client2 customer2 report date →
  daily_report to_dict date_predicate client1 customer1 report date
  = daily_report to_dict date_predicate client2 customer2 report date.
Proof. intros H. by rewrite !daily_report_rows, H. Qed.

(** X9. The generator keeps no state between batches: on a stream that is
    one stream followed by another it yields what it yields on the first
    and then, unless the first run raised, what it yields on the second;
    a failure in the first part means the second is never read. *)
Theorem daily_report_stream_append (client client1 client2 : Client) customer_id
    report date :
  let query := query_of date_predicate report date in
  search_stream client customer_id query
  = search_stream client1 customer_id query ++ search_stream client2 customer_id query →
  daily_report to_dict date_predicate client customer_id report date
  = Gen.seq (daily_report to_dict date_predicate client1 customer_id report date)
            (daily_report to_dict date_predicate client2 customer_id report date).
Proof.
  intros query H. rewrite !daily_report_rows. unfold streamed_rows. fold query.
  rewrite H, map_app, concat_app. apply GenFacts.for_each_app.
Qed.

(** X10. A record never carries the raw date text: whatever a yielded
    record holds under [segments_date] is a datetime, at midnight, of a
    real calendar date. *)
Theorem daily_report_date_is_valid (client : Client) customer_id report date
    i item v :
  yielded (daily_report to_dict date_predicate client customer_id report date) !! i
    = Some item →
  item !! KStr "segments_date" = Some v →
  ∃ dt, v = VDatetime dt ∧ valid_date dt.
Proof.
  intros Hi Hv.
  destruct (daily_report_record_row _ _ _ _ _ _ _ _ Hi)
    as (row & data & Hrow & Hok & ->).
  apply map_lookup_filter_Some in Hv as [Hv _].
  pose proof (row_data_cases to_dict row) as Hc.
  destruct (Flatten.flatten (to_dict row) !! KStr "segments_date") as [raw|] eqn:Hraw.
  - destruct (Strptime.strptime raw) as [parsed|e] eqn:Hp;
      rewrite Hok in Hc; [|discriminate].
    injection Hc as ->. rewrite lookup_insert_eq in Hv. injection Hv as <-.
    exists parsed. split; [done|]. by eapply StrptimeSound.strptime_sound.
  - rewrite Hok in Hc. injection Hc as ->. rewrite Hraw in Hv. discriminate.
Qed.

(** X11. The value of a declared field reaches the record under the
    underscored name: when the row's dict holds a leaf [v] at
    [row[r][f]], no two leaves of the row flatten to the same key, and
    [r.f] is a declared field other than the date, the record holds [v]
    under [r_f]. *)
Theorem daily_report_field_value (client : Client) customer_id report date
    i item row r fields f v :
  yielded (daily_report to_dict date_predicate client customer_id report date) !! i
    = Some item →
  streamed_rows date_predicate client customer_id report date !! i = Some row →
  NoDup (flat_keys (to_dict row)) →
  (r, VDict fields) ∈ to_dict row → (f, v) ∈ fields → is_leaf v = true →
  r ≠ "" → Str.count "." r = 0 → Str.count "." f = 0 →
  (r +:+ "." +:+ f) ∈ dimensions report ++ metrics report ++ segments report →
  r +:+ "_" +:+ f ≠ "segments_date" →
  item !! KStr (r +:+ "_" +:+ f) = Some v.
Proof.
  intros Hi Hrow Hnd Hr Hf Hleaf Hne Hrdot Hfdot Hdecl Hnotdate.
  destruct (daily_report_record_row _ _ _ _ _ _ _ _ Hi)
    as (row' & data & Hrow' & Hok & ->).
  rewrite Hrow in Hrow'. injection Hrow' as <-.
  apply map_lookup_filter_Some. split.
  - rewrite (row_data_other_keys _ _ _ _ Hok) by congruence.
    replace (KStr (r +:+ "_" +:+ f))
      with (Flatten.path_key "_" KNone [KStr r; KStr f])
      by apply (FlattenFacts.path_key_join "_" r [f] Hne).
    apply FlattenMore.flatten_lookup_nodup; [done| |].
    + intros E. rewrite E in Hr. by apply elem_of_nil in Hr.
    + apply (FlattenMore.leaf_paths_dict_elem _ _ _ [KStr f] v Hr).
      apply (FlattenMore.leaf_paths_dict_elem _ _ _ [] v Hf).
      rewrite FlattenMore.leaf_paths_leaf by done. by left.
  - cbn [fst]. apply allowed_keys_spec. exists (r +:+ "." +:+ f). split; [done|].
    rewrite !StrMore.replace_app.
    rewrite (StrMore.replace_fixed "." "_" r), (StrMore.replace_fixed "." "_" f) by done.
    reflexivity.
Qed.

(** X12. Without a custom spec the source never raises and registers the
    catalog as it stands: one resource per entry, in the order of the
    catalog, named by the entry, with write disposition [merge], keyed by
    the entry's own primary keys and bound to the generator of that
    entry's report. *)
Theorem google_ads_without_spec (client : Client) customer_id date :
  let out := google_ads to_dict date_predicate client customer_id date None in
  raised out = None
  ∧ length (yielded out) = length BUILTIN_REPORTS
  ∧ ∀ i, yielded out !! i
         = (λ '(report_name, report),
              mkResource report_name "merge" (primary_keys report)
                (daily_report to_dict date_predicate client customer_id report date))
           <$> (BUILTIN_REPORTS !! i).
Proof.
  intros out. subst out. rewrite google_ads_builtin. cbn [raised yielded].
  split; [done|]. split; [by rewrite length_map|].
  intros i. change (map ?f ?l) with (f <$> l). rewrite list_lookup_fmap.
  by destruct (BUILTIN_REPORTS !! i) as [[n r]|].
Qed.

End SourceMore.

(** X13. The catalog obeys the rules the parser enforces on a custom spec:
    the names are pairwise distinct and none is [daily_report], the name
    of the custom resource; in every entry each dimension passes
    [_parse_dimension] unchanged, each metric passes [_parse_metric]
    unchanged, each segment starts with [segments.], and the underscored
    names of the fields, hence the primary keys, are pairwise distinct. *)
Theorem builtin_reports_well_formed :
  NoDup (map fst BUILTIN_REPORTS)
  ∧ ("daily_report" ∉ map fst BUILTIN_REPORTS)
  ∧ Forall (λ entry,
       let report := entry.2 in
       map_result _parse_dimension (dimensions report) = Ok (dimensions report)
       ∧ map _parse_metric (metrics report) = metrics report
       ∧ Forall (λ s, Str.startswith s "segments." = true) (segments report)
       ∧ NoDup (map (Str.replace "." "_") (fields_of report))
       ∧ NoDup (primary_keys report))
      BUILTIN_REPORTS.
Proof.
  split; [|split].
  - apply (bool_decide_unpack _). by vm_compute.
  - apply (bool_decide_unpack _). by vm_compute.
  - unfold BUILTIN_REPORTS.
    repeat (apply List.Forall_cons;
            [split; [by vm_compute|]; split; [by vm_compute|]; split;
               [apply (bool_decide_unpack _); by vm_compute|]; split;
               apply (bool_decide_unpack _); by vm_compute|]).
    apply List.Forall_nil.
Qed.

(** ** Flat records and the key of a custom report *)

Lemma falsy_is_leaf v : Flatten.falsy v = true → is_leaf v = true.
Proof. by destruct v as [| | | | | |[|x xs]|[|kv items]]. Qed.

Lemma leaf_paths_are_leaves v :
  ∀ path x, (path, x) ∈ Flatten.leaf_paths v → is_leaf x = true.
Proof.
  induction v as [| | | | | |xs IH|items IH] using FlattenFacts.value_nested_ind;
    intros path x;
    try (simpl;
         match goal with
         | |- context [if ?b then _ else _] => destruct b
         | _ => idtac
         end; by intros [= _ ->]%list_elem_of_singleton).
  - assert (Hloop : ∀ index path,
      (path, x) ∈
        (fix each (index : nat) (xs : list value) :=
           match xs with
           | [] => []
           | item :: rest =>
               map (λ pv, (KInt index :: pv.1, pv.2)) (Flatten.leaf_paths item)
               ++ each (S index) rest
           end) index xs → is_leaf x = true).
    { clear path. induction IH as [|z zs Hz _ IHzs]; intros index path Hin.
      - by apply elem_of_nil in Hin.
      - apply elem_of_app in Hin as [Hin|Hin]; [|by eapply IHzs].
        change (map ?f ?l) with (f <$> l) in Hin.
        apply list_elem_of_fmap in Hin as ([p' x'] & [= _ ->] & Hin). by eapply Hz. }
    destruct xs as [|y ys]; [by intros [= _ ->]%list_elem_of_singleton|].
    apply Hloop.
  - assert (Hloop : ∀ path,
      (path, x) ∈
        (fix each (items : list (string * value)) :=
           match items with
           | [] => []
           | (object_key, item) :: rest =>
               map (λ pv, (KStr object_key :: pv.1, pv.2)) (Flatten.leaf_paths item)
               ++ each rest
           end) items → is_leaf x = true).
    { clear path. induction IH as [|[k z] zs Hz _ IHzs]; intros path Hin.
      - by apply elem_of_nil in Hin.
      - apply elem_of_app in Hin as [Hin|Hin]; [|by eapply IHzs].
        change (map ?f ?l) with (f <$> l) in Hin.
        apply list_elem_of_fmap in Hin as ([p' x'] & [= _ ->] & Hin). by eapply Hz. }
    destruct items as [|kv kvs]; [by intros [= _ ->]%list_elem_of_singleton|].
    apply Hloop.
Qed.

(** X14. Records are flat: in every record [daily_report] yields, each
    key is a string, the underscored name of a declared field, and each
    value is a leaf, never a non-empty list or dict. *)
Theorem daily_report_records_are_flat {Row : Type} (to_dict : Row → pydict)
    (date_predicate : string → option datetime → option datetime → string)
    (client : @GoogleAdsClient Row) customer_id report date i item k v :
  yielded (daily_report to_dict date_predicate client customer_id report date) !! i
    = Some item →
  item !! k = Some v →
  is_leaf v = true
  ∧ ∃ path, path ∈ dimensions report ++ metrics report ++ segments report
            ∧ k = KStr (Str.replace "." "_" path).
Proof.
  intros Hi Hv.
  destruct (daily_report_record_row _ _ _ _ _ _ _ _ Hi)
    as (row & data & Hrow & Hok & ->).
  apply map_lookup_filter_Some in Hv as [Hv Hk]. cbn [fst] in Hk.
  split; [|by apply allowed_keys_spec].
  destruct (decide (k = KStr "segments_date")) as [->|Hne].
  - pose proof (row_data_cases to_dict row) as Hc.
    destruct (Flatten.flatten (to_dict row) !! KStr "segments_date") as [raw|] eqn:Hraw.
    + destruct (Strptime.strptime raw) as [parsed|e];
        rewrite Hok in Hc; [|discriminate].
      injection Hc as ->. rewrite lookup_insert_eq in Hv. by injection Hv as <-.
    + rewrite Hok in Hc. injection Hc as ->. rewrite Hraw in Hv. discriminate.
  - rewrite (row_data_other_keys _ _ _ _ Hok Hne) in Hv.
    apply FlattenFacts.flatten_keys in Hv as (path & Hin & _).
    by eapply leaf_paths_are_leaves.
Qed.

(** X15. A custom report is always keyed by the date: the primary keys of
    a report [from_spec] returned are its underscored dimensions followed
    by [segments_date], one more than the dimensions, and [segments_date]
    is a key [daily_report] keeps for it. *)
Theorem from_spec_keyed_by_date (spec : string) (report : Report) :
  from_spec spec = Ok report →
  primary_keys report
  = map (Str.replace "." "_") (dimensions report) ++ ["segments_date"]
  ∧ length (primary_keys report) = S (length (dimensions report))
  ∧ KStr "segments_date" ∈ allowed_keys_of report.
Proof.
  intros (p & dims & mets & _ & _ & _ & _ & _ & Hs)%from_spec_inv.
  assert (Hpk : primary_keys report
                = map (Str.replace "." "_") (dimensions report) ++ ["segments_date"]).
  { unfold primary_keys. by rewrite map_app, Hs. }
  split; [done|]. split.
  - rewrite Hpk, length_app, length_map. simpl. lia.
  - apply allowed_keys_spec. exists "segments.date". split; [|done].
    rewrite Hs, !elem_of_app. right. right. apply list_elem_of_here.
Qed.

(** ** More sample runs *)

Lemma daily_report_rebatching_witness :
  daily_report id sample_predicate
    (batches_client [[dated_row]; []; [click_row]]) "1" campaign_report_daily no_cursor
  = daily_report id sample_predicate
      (batches_client [[dated_row; click_row]]) "2" campaign_report_daily no_cursor.
Proof.
  apply (daily_report_rebatching id sample_predicate
           (batches_client [[dated_row]; []; [click_row]])
           (batches_client [[dated_row; click_row]])).
  reflexivity.
Defined.

Lemma daily_report_stream_append_witness :
  daily_report id sample_predicate
    (batches_client [[slash_date_row]; [click_row]]) "1" campaign_report_daily no_cursor
  = Gen.seq
      (daily_report id sample_predicate
         (batches_client [[slash_date_row]]) "1" campaign_report_daily no_cursor)
      (daily_report id sample_predicate
         (batches_client [[click_row]]) "1" campaign_report_daily no_cursor).
Proof.
  apply (daily_report_stream_append id sample_predicate
           (batches_client [[slash_date_row]; [click_row]])
           (batches_client [[slash_date_row]])
           (batches_client [[click_row]])).
  reflexivity.
Defined.

Lemma daily_report_date_is_valid_witness :
  valid_date (mkDatetime 2024 3 1 0 0 0).
Proof.
  pose (item := filter (λ kv : pykey * value,
                          kv.1 ∈ allowed_keys_of campaign_report_daily)
                  (<[KStr "segments_date" := VDatetime (mkDatetime 2024 3 1 0 0 0)]>
                     (Flatten.flatten dated_row))).
  assert (Hi : yielded (daily_report id sample_predicate (one_batch_client [dated_row])
                          "1" campaign_report_daily no_cursor) !! 0 = Some item)
    by (rewrite daily_report_rows; reflexivity).
  assert (Hv : item !! KStr "segments_date"
               = Some (VDatetime (mkDatetime 2024 3 1 0 0 0)))
    by (vm_compute; reflexivity).
  destruct (daily_report_date_is_valid id sample_predicate _ _ _ _ _ _ _ Hi Hv)
    as (dt & Heq & Hvalid).
  injection Heq as <-. exact Hvalid.
Defined.

Lemma daily_report_field_value_witness :
  let item := filter (λ kv : pykey * value, kv.1 ∈ allowed_keys_of click_report_daily)
                (Flatten.flatten click_row) in
  yielded (daily_report id sample_predicate (one_batch_client [click_row]) "1"
             click_report_daily no_cursor) !! 0 = Some item
  ∧ item !! KStr ("campaign" +:+ "_" +:+ "id") = Some (VStr "333").
Proof.
  intros item.
  assert (Hi : yielded (daily_report id sample_predicate (one_batch_client [click_row])
                          "1" click_report_daily no_cursor) !! 0 = Some item)
    by (rewrite daily_report_rows; reflexivity).
  split; [exact Hi|].
  apply (daily_report_field_value id sample_predicate _ _ _ _ 0 item click_row
           "campaign" [("id", VStr "333")] "id" (VStr "333") Hi).
  - reflexivity.
  - apply (bool_decide_unpack _). by vm_compute.
  - unfold id, click_row. do 3 apply list_elem_of_further. apply list_elem_of_here.
  - apply list_elem_of_here.
  - reflexivity.
  - discriminate.
  - reflexivity.
  - reflexivity.
  - unfold click_report_daily. cbn [dimensions metrics segments].
    do 3 apply list_elem_of_further. apply list_elem_of_here.
  - discriminate.
Defined.

Lemma daily_report_records_are_flat_witness :
  let item := filter (λ kv : pykey * value, kv.1 ∈ allowed_keys_of click_report_daily)
                (Flatten.flatten click_row) in
  is_leaf (VStr "1") = true
  ∧ ∃ path, path ∈ dimensions click_report_daily ++ metrics click_report_daily
                   ++ segments click_report_daily
            ∧ KStr "metrics_clicks" = KStr (Str.replace "." "_" path).
Proof.
  intros item.
  apply (daily_report_records_are_flat id sample_predicate
           (one_batch_client [click_row]) "1" click_report_daily no_cursor 0 item).
  - rewrite daily_report_rows. reflexivity.
  - vm_compute. reflexivity.
Defined.

Lemma from_spec_keyed_by_date_witness :
  primary_keys {| resource := "campaign"; dimensions := ["campaign.id"];
                  metrics := ["metrics.clicks"]; segments := ["segments.date"] |}
  = ["campaign_id"; "segments_date"].
Proof.
  apply (from_spec_keyed_by_date "custom:campaign:campaign.id:clicks"). reflexivity.
Defined.

Lemma daily_report_segments_date_witness :
  ∃ item,
    yielded (daily_report id sample_predicate (one_batch_client [dated_row]) "1"
               campaign_report_daily no_cursor) !! 0 = Some item
    ∧ item !! KStr "segments_date" = Some (VDatetime (mkDatetime 2024 3 1 0 0 0)).
Proof.
  assert (Hflat : Flatten.flatten (id dated_row) !! KStr "segments_date"
                  = Some (VStr "2024-03-01")) by (vm_compute; reflexivity).
  destruct (daily_report_segments_date id sample_predicate
              (one_batch_client [dated_row]) "1" campaign_report_daily no_cursor)
    as (_ & _ & _ & _ & _ & _ & Hrecord & _).
  destruct (Hrecord 0 dated_row) as (item & Hi & Hitem).
  - reflexivity.
  - intros [|j] row' Hj Hrow'; [|lia]. injection Hrow' as <-.
    rewrite Hflat. eexists. exact strptime_iso.
  - exists item. split; [exact Hi|].
    rewrite Hflat in Hitem. destruct Hitem as (parsed & Hparsed & ->).
    rewrite strptime_iso in Hparsed. injection Hparsed as <-.
    apply map_lookup_filter_Some. split; [apply lookup_insert_eq|].
    apply (bool_decide_unpack _). by vm_compute.
Defined.
